(** * A task-tracking backend: authentication, users and tasks

    Shallow embedding of the FastAPI handlers of [auth.py], [users.py] and
    [tasks.py] over the tables declared in [models.py] and the request
    schemas of [schemas.py].

    Conventions of the embedding:
    - a nullable column is an [option]; SQL [NULL] is [None];
    - a [datetime] is a number of seconds (JWT serialises its time claims
      that way);
    - a table is the list of its rows in insertion (rowid) order;
    - a handler runs inside a SQLAlchemy session: attribute assignments and
      [db.add] touch the session's pending view, [db.commit] publishes that
      view to the store after the unique constraints of [models.py] have been
      checked, and an exception leaves the store as it was;
    - foreign keys are declared but not enforced (the engine of [admin.py] is
      SQLite, which does not enforce them unless asked to);
    - the library functions the handlers call (SHA-256, the HS256 signature,
      Python's [int] and [str]) and the environment's [KEY] are the fields of
      the class [Externals]. *)

From Stdlib Require Import ZArith List String Bool Lia.
From Stdlib Require Import DecimalString DecimalZ.
Import ListNotations.
Local Open Scope Z_scope.
Local Open Scope string_scope.

Set Implicit Arguments.

(* ------------------------------------------------------------------ *)
(** ** Python equality *)

Class EqDec (A : Type) := eq_dec : forall x y : A, {x = y} + {x <> y}.

Definition eqb {A : Type} `{EqDec A} (x y : A) : bool :=
  if eq_dec x y then true else false.

Infix "==" := eqb (at level 70, no associativity).
Notation "x != y" := (negb (eqb x y)) (at level 70, no associativity).

#[export] Instance EqDec_Z : EqDec Z := Z.eq_dec.
#[export] Instance EqDec_string : EqDec string := string_dec.

#[export] Instance EqDec_option (A : Type) `{EqDec A} : EqDec (option A).
Proof.
  intros [x|] [y|].
  - destruct (eq_dec x y) as [e|n].
    + left; now f_equal.
    + right; intros E; apply n; now injection E.
  - right; discriminate.
  - right; discriminate.
  - now left.
Defined.

(* ------------------------------------------------------------------ *)
(** ** models.py *)

Definition datetime := Z.

Inductive UserRole : Type := USER | ADMIN | SUPERADMIN.

#[export] Instance EqDec_UserRole : EqDec UserRole.
Proof. intros x y; unfold EqDec; decide equality. Defined.

Definition UserRole_value (r : UserRole) : string :=
  match r with
  | USER => "user"
  | ADMIN => "admin"
  | SUPERADMIN => "superadmin"
  end.

Module User.
Record t : Type := mk {
  id : Z;
  email : option string;
  username : option string;
  hashed_password : option string;
  role : option UserRole;
  created_at : datetime
}.
End User.

Inductive TaskStatus : Type := TODO | IN_PROGRESS | DONE | CANCELLED.
Inductive TaskPriority : Type := LOW | MEDIUM | HIGH.

#[export] Instance EqDec_TaskStatus : EqDec TaskStatus.
Proof. intros x y; unfold EqDec; decide equality. Defined.

#[export] Instance EqDec_TaskPriority : EqDec TaskPriority.
Proof. intros x y; unfold EqDec; decide equality. Defined.

Module Task.
Record t : Type := mk {
  id : Z;
  title : option string;
  description : option string;
  status : option TaskStatus;
  priority : option TaskPriority;
  deadline : option datetime;
  created_at : datetime;
  author_id : option Z;
  assignee_id : option Z
}.
End Task.

Module Comment.
Record t : Type := mk {
  id : Z;
  text : option string;
  created_at : datetime;
  task_id : option Z;
  author_id : option Z
}.
End Comment.

(** [role = Column(Enum(UserRole), default=UserRole.USER)] *)
Definition User_role_default : UserRole := USER.

(* ------------------------------------------------------------------ *)
(** ** The store and the session *)

Record DB : Type := mkDB {
  users : list User.t;
  tasks : list Task.t;
  comments : list Comment.t
}.

(** [stored] is what has been committed; [pending] is the session's view,
    with the changes that are not committed yet. *)
Record Session : Type := mkSession {
  stored : DB;
  pending : DB
}.

Definition open_session (db : DB) : Session := mkSession db db.

(** Closing a session without a commit drops its pending changes. *)
Definition close_session (s : Session) : DB := stored s.

Inductive JWTError : Type := DecodeError | InvalidSignatureError | ExpiredSignatureError.

Inductive Exception : Type :=
| HTTPException (status_code : Z) (detail : string)
| PyJWTError (e : JWTError)
| IntegrityError
| ValueError
| AttributeError
| ValidationError
| TypeError.

Inductive Result (A : Type) : Type :=
| Return (a : A)
| Raise (e : Exception).

Arguments Return {A} a.
Arguments Raise {A} e.

Definition M (A : Type) : Type := Session -> Result A * Session.

Definition ret {A : Type} (a : A) : M A := fun s => (Return a, s).

Definition raise {A : Type} (e : Exception) : M A := fun s => (Raise e, s).

Definition bind {A B : Type} (c : M A) (k : A -> M B) : M B :=
  fun s =>
    match c s with
    | (Return a, s') => k a s'
    | (Raise e, s') => (Raise e, s')
    end.

Declare Scope handler_scope.
Delimit Scope handler_scope with handler.
Notation "x <- c ;; k" := (bind c (fun x => k))
  (at level 100, c at next level, right associativity) : handler_scope.
Notation "c ;; k" := (bind c (fun _ => k))
  (at level 100, right associativity) : handler_scope.
Local Open Scope handler_scope.

(** [if cond: raise e] *)
Definition raise_if (cond : bool) (e : Exception) : M unit :=
  if cond then raise e else ret tt.

(** [db.query(User).filter(p).first()], [db.query(Task).filter(p).first()] *)
Definition query_User_first (p : User.t -> bool) : M (option User.t) :=
  fun s => (Return (find p (users (pending s))), s).

Definition query_Task_first (p : Task.t -> bool) : M (option Task.t) :=
  fun s => (Return (find p (tasks (pending s))), s).


(** The next value of an integer primary key: one more than the largest. *)
Definition next_id (ids : list Z) : Z := 1 + fold_right Z.max 0 ids.

(** Assignment to attributes of the loaded row with primary key [pk]. *)
Definition setattr_User (pk : Z) (f : User.t -> User.t) : M unit :=
  fun s =>
    let db := pending s in
    (Return tt,
     mkSession (stored s)
       (mkDB (map (fun u => if User.id u == pk then f u else u) (users db))
             (tasks db) (comments db))).

Definition setattr_Task (pk : Z) (f : Task.t -> Task.t) : M unit :=
  fun s =>
    let db := pending s in
    (Return tt,
     mkSession (stored s)
       (mkDB (users db)
             (map (fun t => if Task.id t == pk then f t else t) (tasks db))
             (comments db))).

(** [db.add(obj)]: the row gets its primary key; the caller has filled in
    the column defaults. *)
Definition add_User (new : Z -> User.t) : M User.t :=
  fun s =>
    let db := pending s in
    let u := new (next_id (map User.id (users db))) in
    (Return u, mkSession (stored s) (mkDB (users db ++ [u]) (tasks db) (comments db))).

Definition add_Task (new : Z -> Task.t) : M Task.t :=
  fun s =>
    let db := pending s in
    let t := new (next_id (map Task.id (tasks db))) in
    (Return t, mkSession (stored s) (mkDB (users db) (tasks db ++ [t]) (comments db))).

Definition add_Comment (new : Z -> Comment.t) : M Comment.t :=
  fun s =>
    let db := pending s in
    let c := new (next_id (map Comment.id (comments db))) in
    (Return c, mkSession (stored s) (mkDB (users db) (tasks db) (comments db ++ [c]))).

(** [db.delete(task)] *)
Definition delete_Task (pk : Z) : M unit :=
  fun s =>
    let db := pending s in
    (Return tt,
     mkSession (stored s)
       (mkDB (users db) (filter (fun t => Task.id t != pk) (tasks db)) (comments db))).

(** A [unique=True] column: no two rows hold the same non-NULL value. *)
Fixpoint unique (A : Type) `{EqDec A} (l : list (option A)) : bool :=
  match l with
  | [] => true
  | None :: l' => unique l'
  | Some x :: l' => negb (existsb (fun y => y == Some x) l') && unique l'
  end.

(** A primary key: never NULL, never repeated. *)
Definition primary_key (ids : list Z) : bool := unique (map Some ids).

Definition constraints_ok (db : DB) : bool :=
  primary_key (map User.id (users db))
  && unique (map User.email (users db))
  && unique (map User.username (users db))
  && primary_key (map Task.id (tasks db))
  && unique (map Task.title (tasks db))
  && primary_key (map Comment.id (comments db)).

(** [db.commit()]: the pending rows are written; a violated constraint
    raises and nothing is written. The store itself never holds a violation,
    so checking the tables of the pending view comes to checking the rows
    that are written. *)
Definition commit : M unit :=
  fun s =>
    if constraints_ok (pending s)
    then (Return tt, mkSession (pending s) (pending s))
    else (Raise IntegrityError, s).

(** [db.refresh(obj)]: the row as the database has it now. The handlers
    refresh only rows they have loaded, so the row is there. *)
Definition refresh_User (u : User.t) : M User.t :=
  fun s =>
    match find (fun v => User.id v == User.id u) (users (pending s)) with
    | Some v => (Return v, s)
    | None => (Return u, s)
    end.

(* ------------------------------------------------------------------ *)
(** ** schemas.py *)

(** A field of a request model that may be left out: [None] when the body
    does not set it ([exclude_unset] drops it), [Some v] when it does, where
    [v] itself is [None] for an explicit [null]. *)
Definition field (A : Type) : Type := option (option A).

Module UserCreate.
Record t : Type := mk {
  email : string;
  username : string;
  password : string;
  role : UserRole
}.
End UserCreate.

Module LoginRequest.
Record t : Type := mk {
  email : string;
  password : string
}.
End LoginRequest.

Module UserUpdate.
Record t : Type := mk {
  email : field string;
  username : field string
}.
End UserUpdate.

(** The subclass [class SUPERADMINUserUpdate(UserUpdate)], which adds
    [role] and nothing else. *)
Module SUPERADMINUserUpdate.
Record t : Type := mk {
  email : field string;
  username : field string;
  role : field UserRole
}.
End SUPERADMINUserUpdate.

Module TaskCreate.
Record t : Type := mk {
  title : string;
  description : option string;
  status : TaskStatus;
  priority : TaskPriority;
  deadline : option datetime;
  assignee_id : option Z
}.
End TaskCreate.

Module TaskUpdate.
Record t : Type := mk {
  title : field string;
  description : field string;
  status : field TaskStatus;
  priority : field TaskPriority;
  deadline : field datetime;
  assignee_id : field Z
}.
End TaskUpdate.

Module TaskResponse.
Record t : Type := mk {
  title : string;
  description : option string;
  status : TaskStatus;
  priority : TaskPriority;
  deadline : option datetime;
  created_at : datetime;
  author_id : Z;
  assignee_id : option Z
}.
End TaskResponse.

Module CommentCreate.
Record t : Type := mk {
  text : string
}.
End CommentCreate.

Module CommentResponse.
Record t : Type := mk {
  text : string;
  task_id : Z;
  created_at : datetime;
  author : string
}.
End CommentResponse.

(* ------------------------------------------------------------------ *)
(** ** JSON Web Tokens, as [auth.py] uses the [jwt] library *)

(** The claims of a token: a dictionary in which any key may be missing. *)
Module Payload.
Record t : Type := mk {
  sub : option string;
  role : option string;
  exp : option datetime;
  iat : option datetime
}.
End Payload.

(** The value of the [access_token] cookie: a signed payload, or any other
    string. *)
Module JWT.
Inductive t : Type :=
| Opaque (raw : string)
| JWS (payload : Payload.t) (signature : string).
End JWT.

(** Python's truth value of the cookie string: only the empty string is
    false. *)
Definition truthy (tok : JWT.t) : bool :=
  match tok with
  | JWT.Opaque raw => raw != ""
  | JWT.JWS _ _ => true
  end.

(** [class Token(BaseModel)]: the body of the login and refresh responses. *)
Module Token.
Record t : Type := mk {
  access_token : JWT.t
}.
End Token.

Class Externals : Type := {
  (** [KEY = os.getenv("KEY")] *)
  KEY : string;
  (** [sha256(s.encode()).hexdigest()] *)
  sha256_hexdigest : string -> string;
  (** the HS256 signature of a payload under a key *)
  hs256 : string -> Payload.t -> string;
  (** [str(n)] and [int(s)]; [int] raises [ValueError] where it is [None] *)
  py_str : Z -> string;
  py_int : string -> option Z;
  py_int_str : forall n : Z, py_int (py_str n) = Some n
}.

Module Request.
Record t : Type := mk {
  cookies : list (string * JWT.t)
}.
End Request.

(** [request.cookies.get(name)] *)
Definition cookies_get (request : Request.t) (name : string) : option JWT.t :=
  match find (fun kv => fst kv == name) (Request.cookies request) with
  | Some kv => Some (snd kv)
  | None => None
  end.

Module Cookie.
Record t : Type := mk {
  key : string;
  value : JWT.t;
  httponly : bool
}.
End Cookie.

(** The [Set-Cookie] headers a handler has put on its response, oldest
    first. *)
Definition Response : Type := list Cookie.t.

Definition set_cookie (response : Response) (key : string) (value : JWT.t)
    (httponly : bool) : Response :=
  (response ++ [Cookie.mk key value httponly])%list.

(** [response.delete_cookie(key)]: the cookie is set again, empty and
    expired. *)
Definition delete_cookie (response : Response) (key : string) : Response :=
  (response ++ [Cookie.mk key (JWT.Opaque "") false])%list.

(** Two successive readings of [datetime.now(timezone.utc)]. *)
Module Clock.
Record t : Type := mk {
  first : datetime;
  second : datetime
}.
End Clock.


Section Auth.
Context {E : Externals}.

Definition jwt_encode (payload : Payload.t) (key : string) : JWT.t :=
  JWT.JWS payload (hs256 key payload).

(** [jwt.decode(token, key, algorithms, options={"verify_exp": verify_exp})]
    at time [now]: the signature is checked first, then the expiry if asked
    for. Of the registered claims only [exp] is looked at. *)
Definition jwt_decode (token : JWT.t) (key : string) (verify_exp : bool)
    (now : datetime) : Result Payload.t :=
  match token with
  | JWT.Opaque _ => Raise (PyJWTError DecodeError)
  | JWT.JWS payload signature =>
      if signature == hs256 key payload then
        match Payload.exp payload with
        | Some exp =>
            if verify_exp && (exp <=? now)%Z
            then Raise (PyJWTError ExpiredSignatureError)
            else Return payload
        | None => Return payload
        end
      else Raise (PyJWTError InvalidSignatureError)
  end.

(* ------------------------------------------------------------------ *)
(** ** auth.py *)

Definition TOKEN_EXPIRE_DAYS : Z := 30.

Definition timedelta_days (days : Z) : Z := days * 86400.

Definition create_token (clock : Clock.t) (user_id : Z) (role : UserRole) : JWT.t :=
  let expire := Clock.first clock + timedelta_days TOKEN_EXPIRE_DAYS in
  let payload :=
    Payload.mk (Some (py_str user_id)) (Some (UserRole_value role))
               (Some expire) (Some (Clock.second clock)) in
  jwt_encode payload KEY.

(** [int(payload.get("sub"))] *)
Definition int_of_sub (sub : option string) : Result Z :=
  match sub with
  | None => Raise TypeError
  | Some s =>
      match py_int s with
      | Some n => Return n
      | None => Raise ValueError
      end
  end.

Definition get_current_user (now : datetime) (request : Request.t) : M User.t :=
  match cookies_get request "access_token" with
  | None => raise (HTTPException 401 "Not authentificated")
  | Some access_token =>
      if negb (truthy access_token)
      then raise (HTTPException 401 "Not authentificated")
      else
        match jwt_decode access_token KEY true now with
        | Raise (PyJWTError _) => raise (HTTPException 401 "Invalid token")
        | Raise e => raise e
        | Return payload =>
            match int_of_sub (Payload.sub payload) with
            | Raise e => raise e
            | Return user_id =>
                user <- query_User_first (fun u => User.id u == user_id) ;;
                match user with
                | None => raise (HTTPException 401 "User not found")
                | Some user => ret user
                end
            end
        end
  end.

Definition get_active_current_user (current_user : User.t) : User.t :=
  current_user.

Definition hash_password (password : string) : string :=
  sha256_hexdigest password.

(** Returns [True] or falls off the end ([None], which is false). *)
Definition verify_password (plain_password : string)
    (hashed_password : option string) : bool :=
  Some (sha256_hexdigest plain_password) == hashed_password.

(** [User(email=..., username=..., hashed_password=...)]: the role is not
    passed, so the column default fills it in at the insert, as the server
    default does for [created_at]. *)
Definition register (now : datetime) (user_data : UserCreate.t) : M User.t :=
  exiting_user <- query_User_first
                    (fun u => User.email u == Some (UserCreate.email user_data)) ;;
  match exiting_user with
  | Some _ => raise (HTTPException 400 "Email already registered")
  | None =>
      let password := hash_password (UserCreate.password user_data) in
      user <- add_User (fun pk =>
                User.mk pk
                  (Some (UserCreate.email user_data))
                  (Some (UserCreate.username user_data))
                  (Some password)
                  (Some User_role_default)
                  now) ;;
      commit ;;
      ret user
  end.

Definition login (clock : Clock.t) (login_data : LoginRequest.t)
    (response : Response) : M (Token.t * Response) :=
  user <- query_User_first
            (fun u => User.email u == Some (LoginRequest.email login_data)) ;;
  match user with
  | None => raise (HTTPException 401 "Invalid credentials")
  | Some user =>
      if negb (verify_password (LoginRequest.password login_data)
                               (User.hashed_password user))
      then raise (HTTPException 401 "Invalid credentials")
      else
        match User.role user with
        | None => raise AttributeError
        | Some role =>
            let access_token := create_token clock (User.id user) role in
            let response := set_cookie response "access_token" access_token true in
            ret (Token.mk access_token, response)
        end
  end.


End Auth.

(* ------------------------------------------------------------------ *)
(** ** users.py *)

(** What the handler reads from [update_data['password']]. *)
Module PasswordData.
Record t : Type := mk {
  current_password : string;
  new_password : string
}.
End PasswordData.

(** The dictionary [update_data] with the four keys [update_user] looks up;
    a key that is absent is [None]. *)
Module UpdateData.
Record t : Type := mk {
  email : field string;
  username : field string;
  role : field UserRole;
  password : option PasswordData.t
}.
End UpdateData.

(** [user_data.model_dump(exclude_unset=True)]: the fields the model
    declares and the request has set. [SUPERADMINUserUpdate] declares no
    [password]. *)
Definition model_dump_exclude_unset (user_data : SUPERADMINUserUpdate.t) : UpdateData.t :=
  UpdateData.mk (SUPERADMINUserUpdate.email user_data)
                (SUPERADMINUserUpdate.username user_data)
                (SUPERADMINUserUpdate.role user_data)
                None.

(** The JSON body of [PUT /users/{user_id}] as a client may send it, with a
    [password] object next to the declared fields. *)
Module UpdateBody.
Record t : Type := mk {
  email : field string;
  username : field string;
  role : field UserRole;
  password : option PasswordData.t
}.
End UpdateBody.

(** Validation of the body against [SUPERADMINUserUpdate]: the model has
    no configuration of its own, so keys it does not declare are ignored. *)
Definition validate_SUPERADMINUserUpdate (body : UpdateBody.t) : SUPERADMINUserUpdate.t :=
  SUPERADMINUserUpdate.mk (UpdateBody.email body) (UpdateBody.username body)
                          (UpdateBody.role body).

Section Users.
Context {E : Externals}.

Definition set_email (v : option string) (u : User.t) : User.t :=
  User.mk (User.id u) v (User.username u) (User.hashed_password u)
          (User.role u) (User.created_at u).

Definition set_username (v : option string) (u : User.t) : User.t :=
  User.mk (User.id u) (User.email u) v (User.hashed_password u)
          (User.role u) (User.created_at u).

Definition set_role (v : option UserRole) (u : User.t) : User.t :=
  User.mk (User.id u) (User.email u) (User.username u) (User.hashed_password u)
          v (User.created_at u).

Definition set_hashed_password (v : option string) (u : User.t) : User.t :=
  User.mk (User.id u) (User.email u) (User.username u) v
          (User.role u) (User.created_at u).

(** [GET /users/me] *)
Definition get_current_user_profile (current_user : User.t) : User.t :=
  current_user.

(** [PUT /users/me]. The loop assigns every field the request has set, an
    explicit [null] included. *)
Definition update_current_user (user_data : UserUpdate.t) (response : Response)
    (current_user : User.t) : M (User.t * Response) :=
  match UserUpdate.email user_data with
  | Some new_email =>
      if new_email != User.email current_user then
        existing <- query_User_first (fun u => User.email u == new_email) ;;
        raise_if (match existing with Some _ => true | None => false end)
                 (HTTPException 400 "Email already registered")
      else ret tt
  | None => ret tt
  end ;;
  match UserUpdate.email user_data with
  | Some new_email => setattr_User (User.id current_user) (set_email new_email)
  | None => ret tt
  end ;;
  match UserUpdate.username user_data with
  | Some new_username => setattr_User (User.id current_user) (set_username new_username)
  | None => ret tt
  end ;;
  let response := delete_cookie response "access_token" in
  commit ;;
  current_user <- refresh_User current_user ;;
  ret (current_user, response).

(** [if 'email' in update_data and update_data['email'] != user.email: ...] *)
Definition update_email (user_id : Z) (user : User.t) (update_data : UpdateData.t) : M unit :=
  match UpdateData.email update_data with
  | Some new_email =>
      if new_email != User.email user then
        existing <- query_User_first (fun u => User.email u == new_email) ;;
        raise_if (match existing with
                  | Some existing => User.id existing != user_id
                  | None => false
                  end)
                 (HTTPException 400 "Email already registered") ;;
        setattr_User user_id (set_email new_email)
      else ret tt
  | None => ret tt
  end.

(** [if 'username' in update_data: ...] *)
Definition update_username (user_id : Z) (update_data : UpdateData.t) : M unit :=
  match UpdateData.username update_data with
  | Some new_username => setattr_User user_id (set_username new_username)
  | None => ret tt
  end.

(** [if 'role' in update_data: ...] *)
Definition update_role (user_id : Z) (is_self_update : bool)
    (update_data : UpdateData.t) : M unit :=
  match UpdateData.role update_data with
  | Some new_role =>
      raise_if is_self_update
               (HTTPException 400 "Superadmin cannot change own role") ;;
      setattr_User user_id (set_role new_role)
  | None => ret tt
  end.

(** [if 'password' in update_data: ...] *)
Definition update_password (user_id : Z) (is_self_update : bool)
    (current_user : User.t) (update_data : UpdateData.t) : M unit :=
  match UpdateData.password update_data with
  | Some password_data =>
      if is_self_update then
        raise_if (negb (verify_password
                          (PasswordData.current_password password_data)
                          (User.hashed_password current_user)))
                 (HTTPException 400 "Current password is incorrect") ;;
        setattr_User user_id
          (set_hashed_password
             (Some (hash_password (PasswordData.new_password password_data))))
      else
        raise (HTTPException 400 "Superadmin cannot change other users' passwords")
  | None => ret tt
  end.

(** The body of [update_user] from the email rule on, for any dictionary
    [update_data]. *)
Definition apply_update_data (user_id : Z) (current_user user : User.t)
    (is_self_update : bool) (update_data : UpdateData.t) : M User.t :=
  update_email user_id user update_data ;;
  update_username user_id update_data ;;
  update_role user_id is_self_update update_data ;;
  update_password user_id is_self_update current_user update_data ;;
  commit ;;
  refresh_User user.

Definition update_user (user_id : Z) (user_data : SUPERADMINUserUpdate.t)
    (current_user : User.t) : M User.t :=
  raise_if (User.role current_user != Some SUPERADMIN)
           (HTTPException 403 "Superadmin role required") ;;
  user <- query_User_first (fun u => User.id u == user_id) ;;
  match user with
  | None => raise (HTTPException 404 "User doesn't exist")
  | Some user =>
      let is_self_update := User.id current_user == user_id in
      let update_data := model_dump_exclude_unset user_data in
      apply_update_data user_id current_user user is_self_update update_data
  end.

(** [PUT /users/{user_id}]: the body is validated, then handled. *)
Definition put_user (user_id : Z) (body : UpdateBody.t) (current_user : User.t) : M User.t :=
  update_user user_id (validate_SUPERADMINUserUpdate body) current_user.

End Users.

(* ------------------------------------------------------------------ *)
(** ** tasks.py *)

(** [current_user.role not in [UserRole.ADMIN, UserRole.SUPERADMIN]] *)
Definition role_not_admin (role : option UserRole) : bool :=
  negb (existsb (fun r => role == Some r) [ADMIN; SUPERADMIN]).






(** [TaskResponse(...)] is built without [priority], which therefore takes
    the default of [TaskBase]. *)
Definition create_task (now : datetime) (task_data : TaskCreate.t)
    (current_user : User.t) : M TaskResponse.t :=
  raise_if (role_not_admin (User.role current_user))
           (HTTPException 403 "Admin role required") ;;
  assignee <- query_User_first
                (fun u => Some (User.id u) == TaskCreate.assignee_id task_data) ;;
  match assignee with
  | None => raise (HTTPException 422 "Assignee user doesn't exists")
  | Some _ =>
      taskdb <- add_Task (fun pk =>
                  Task.mk pk
                    (Some (TaskCreate.title task_data))
                    (TaskCreate.description task_data)
                    (Some (TaskCreate.status task_data))
                    (Some (TaskCreate.priority task_data))
                    (TaskCreate.deadline task_data)
                    now
                    (Some (User.id current_user))
                    (TaskCreate.assignee_id task_data)) ;;
      commit ;;
      ret (TaskResponse.mk
             (TaskCreate.title task_data)
             (TaskCreate.description task_data)
             (TaskCreate.status task_data)
             MEDIUM
             (TaskCreate.deadline task_data)
             (Task.created_at taskdb)
             (User.id current_user)
             (TaskCreate.assignee_id task_data))
  end.

(** [TaskResponse] declares [title: str], [status: TaskStatus],
    [priority: TaskPriority] and [author_id: int]: building it from a row
    where one of them is NULL raises. *)
Definition get_task_detail (task_id : Z) (current_user : User.t) : M TaskResponse.t :=
  task <- query_Task_first (fun t => Task.id t == task_id) ;;
  match task with
  | None => raise (HTTPException 404 "Task doesn't exists")
  | Some task =>
      match Task.title task, Task.status task, Task.priority task, Task.author_id task with
      | Some title, Some status, Some priority, Some author_id =>
          ret (TaskResponse.mk title (Task.description task) status priority
                               (Task.deadline task) (Task.created_at task)
                               author_id (Task.assignee_id task))
      | _, _, _, _ => raise ValidationError
      end
  end.

(** [for key, value in up_task.dict(exclude_unset=True).items():
       setattr(task, key, value)] *)
Definition setattrs (up_task : TaskUpdate.t) (t : Task.t) : Task.t :=
  let pick {A : Type} (f : field A) (old : option A) : option A :=
    match f with Some v => v | None => old end in
  Task.mk (Task.id t)
    (pick (TaskUpdate.title up_task) (Task.title t))
    (pick (TaskUpdate.description up_task) (Task.description t))
    (pick (TaskUpdate.status up_task) (Task.status t))
    (pick (TaskUpdate.priority up_task) (Task.priority t))
    (pick (TaskUpdate.deadline up_task) (Task.deadline t))
    (Task.created_at t)
    (Task.author_id t)
    (pick (TaskUpdate.assignee_id up_task) (Task.assignee_id t)).

(** The answer is the dictionary [{"msg": ..., "task_id": task_id}]. *)
Definition update_task (task_id : Z) (up_task : TaskUpdate.t)
    (current_user : User.t) : M (string * Z) :=
  raise_if (role_not_admin (User.role current_user))
           (HTTPException 403 "Admin role required") ;;
  task <- query_Task_first (fun t => Task.id t == task_id) ;;
  match task with
  | None => raise (HTTPException 404 "Task not found")
  | Some task =>
      raise_if ((User.role current_user == Some ADMIN)
                && (Task.author_id task != Some (User.id current_user)))
               (HTTPException 403 "Access denied") ;;
      setattr_Task (Task.id task) (setattrs up_task) ;;
      commit ;;
      ret ("Task updated", task_id)
  end.

(** The answer is the dictionary [{"msg": ...}]. *)
Definition delete_task (task_id : Z) (current_user : User.t) : M string :=
  raise_if (role_not_admin (User.role current_user))
           (HTTPException 403 "Admin role required") ;;
  task <- query_Task_first (fun t => Task.id t == task_id) ;;
  match task with
  | None => raise (HTTPException 404 "Task doesn't exists")
  | Some task =>
      raise_if ((User.role current_user == Some ADMIN)
                && (Task.author_id task != Some (User.id current_user)))
               (HTTPException 403 "Access denied") ;;
      delete_Task (Task.id task) ;;
      commit ;;
      ret "Task is deleted successfully"
  end.

(** [now] is the database's clock (the server default of [created_at]),
    [response_now] the handler's own [datetime.now(timezone.utc)].
    [CommentResponse] declares [author: str], so building it from a user
    without a username raises. *)
Definition comment_to_task (now response_now : datetime) (task_id : Z)
    (comment : CommentCreate.t) (current_user : User.t) : M CommentResponse.t :=
  let new_comment := CommentCreate.mk (CommentCreate.text comment) in
  add_Comment (fun pk =>
    Comment.mk pk (Some (CommentCreate.text new_comment)) now
               (Some task_id) (Some (User.id current_user))) ;;
  commit ;;
  match User.username current_user with
  | None => raise ValidationError
  | Some author =>
      ret (CommentResponse.mk (CommentCreate.text comment) task_id response_now author)
  end.

(* ------------------------------------------------------------------ *)
(** ** An instance of the externals, for running the handlers *)

Definition example_sign (key : string) (payload : Payload.t) : string :=
  let show (o : option string) := match o with Some s => s | None => "-" end in
  let show_time (o : option datetime) :=
    match o with Some z => NilEmpty.string_of_int (Z.to_int z) | None => "-" end in
  key ++ "/" ++ show (Payload.sub payload) ++ "/" ++ show (Payload.role payload)
      ++ "/" ++ show_time (Payload.exp payload) ++ "/" ++ show_time (Payload.iat payload).

Definition example_externals : Externals.
Proof.
  refine {| KEY := "k3y";
            sha256_hexdigest := fun s => "sha256:" ++ s;
            hs256 := example_sign;
            py_str := fun n => NilEmpty.string_of_int (Z.to_int n);
            py_int := fun s => option_map Z.of_int (NilEmpty.int_of_string s) |}.
  intros n. rewrite NilEmpty.isi. simpl. now rewrite DecimalZ.of_to.
Defined.

(* ------------------------------------------------------------------ *)
(** ** Predicates the statements use *)

Section Predicates.
Context {E : Externals}.


End Predicates.

(** A computation that leaves the committed store alone, whatever it
    returns or raises. *)
Definition keeps_store (A : Type) (c : M A) : Prop :=
  forall s, stored (snd (c s)) = stored s.

(** A computation that leaves the committed store alone whenever it raises. *)
Definition raise_keeps_store (A : Type) (c : M A) : Prop :=
  forall s e s', c s = (Raise e, s') -> stored s' = stored s.

Definition never_raises (A : Type) (c : M A) : Prop :=
  forall s e s', c s <> (Raise e, s').

(** The row of user [pk] as the session sees it. *)
Definition pending_User (pk : Z) (s : Session) : option User.t :=
  find (fun u => User.id u == pk) (users (pending s)).

(** The row of user [pk] in the committed store. *)
Definition stored_User (pk : Z) (db : DB) : option User.t :=
  find (fun u => User.id u == pk) (users db).



(** [db'] is [db] with the user rows of key [pk] edited in a way that
    respects [inv], and nothing else changed. *)
Definition edits_User (inv : User.t -> User.t -> Prop) (pk : Z) (db db' : DB) : Prop :=
  exists g : User.t -> User.t,
    (forall u, inv u (g u))
    /\ users db' = map (fun u => if User.id u == pk then g u else u) (users db)
    /\ tasks db' = tasks db
    /\ comments db' = comments db.

(** What a profile update keeps of a row, and what a privileged update
    keeps. *)
Definition same_account (u u' : User.t) : Prop :=
  User.id u' = User.id u /\ User.role u' = User.role u
  /\ User.hashed_password u' = User.hashed_password u
  /\ User.created_at u' = User.created_at u.

Definition same_identity (u u' : User.t) : Prop :=
  User.id u' = User.id u
  /\ User.hashed_password u' = User.hashed_password u
  /\ User.created_at u' = User.created_at u.

(** A computation after which the committed store meets the constraints of
    [models.py] whenever it did before. *)
Definition keeps_constraints (A : Type) (c : M A) : Prop :=
  forall s, constraints_ok (stored s) = true ->
            constraints_ok (stored (snd (c s))) = true.

(** Both the committed store and the session's view are related to [db0],
    the store the request started from. *)
Definition within (R : DB -> DB -> Prop) (db0 : DB) (s : Session) : Prop :=
  R db0 (stored s) /\ R db0 (pending s).

Definition keeps_within (R : DB -> DB -> Prop) (A : Type) (c : M A) : Prop :=
  forall db0 s, within R db0 s -> within R db0 (snd (c s)).

(** The row [create_task] inserts for a request with assignee [a]. *)
Definition created_Task (now : datetime) (task_data : TaskCreate.t)
    (current_user : User.t) (a : Z) (db : DB) : Task.t :=
  Task.mk (next_id (map Task.id (tasks db)))
          (Some (TaskCreate.title task_data))
          (TaskCreate.description task_data)
          (Some (TaskCreate.status task_data))
          (Some (TaskCreate.priority task_data))
          (TaskCreate.deadline task_data)
          now
          (Some (User.id current_user))
          (Some a).

Definition with_Task_added (t : Task.t) (db : DB) : DB :=
  mkDB (users db) (tasks db ++ [t]) (comments db).



(** The store after the user rows of key [pk] have been edited by [f]. *)
Definition with_User_updated (pk : Z) (f : User.t -> User.t) (db : DB) : DB :=
  mkDB (map (fun u => if User.id u == pk then f u else u) (users db))
       (tasks db) (comments db).

(** Requests that change the email alone, and the username alone. *)
Definition email_only (e : string) : SUPERADMINUserUpdate.t :=
  SUPERADMINUserUpdate.mk (Some (Some e)) None None.

Definition username_only (n : string) : UserUpdate.t :=
  UserUpdate.mk None (Some (Some n)).

(** A request that sets the role, to a member or to [null], and nothing
    else. *)
Definition role_field_only (r : option UserRole) : SUPERADMINUserUpdate.t :=
  SUPERADMINUserUpdate.mk None None (Some r).

(* ------------------------------------------------------------------ *)
(** ** Sample data *)

Definition empty_db : DB := mkDB [] [] [].

Definition mallory : UserCreate.t :=
  UserCreate.mk "mallory@x.com" "mallory" "pw" SUPERADMIN.

Definition alice : User.t :=
  User.mk 1 (Some "alice@x.com") (Some "alice") (Some "sha256:pw1") (Some USER) 0.

Definition root : User.t :=
  User.mk 2 (Some "root@x.com") (Some "root") (Some "sha256:toor") (Some SUPERADMIN) 0.

Definition bob : User.t :=
  User.mk 3 (Some "bob@x.com") (Some "bob") (Some "sha256:pw3") (Some ADMIN) 0.

Definition carol : User.t :=
  User.mk 4 (Some "carol@x.com") (Some "carol") (Some "sha256:pw4") (Some ADMIN) 0.

Definition people : DB := mkDB [alice; root; bob; carol] [] [].

(** A token issued to user 1 at time 0: it expired at 2592000. *)
Definition old_token : JWT.t :=
  create_token (E := example_externals) (Clock.mk 0 0) 1 ADMIN.

Definition request_with (token : JWT.t) : Request.t :=
  Request.mk [("access_token", token)].


(** Bodies of [PUT /users/{user_id}] that carry a [password] object and
    nothing else. *)
Definition password_body (current_password new_password : string) : UpdateBody.t :=
  UpdateBody.mk None None None (Some (PasswordData.mk current_password new_password)).

(** Requests of the privileged update: a new role only; a new email
    together with a new role. *)
Definition role_only (r : UserRole) : SUPERADMINUserUpdate.t :=
  SUPERADMINUserUpdate.mk None None (Some (Some r)).

Definition email_and_role (e : string) (r : UserRole) : SUPERADMINUserUpdate.t :=
  SUPERADMINUserUpdate.mk (Some (Some e)) None (Some (Some r)).

(** The session after the email of user 2 has been assigned and nothing
    committed. *)
Definition root_moved : Session :=
  mkSession people
    (mkDB [alice; set_email (Some "new@x.com") root; bob; carol] [] []).

(** Two tasks of user 3, due at 10 and at 30. *)
Definition early_task : Task.t :=
  Task.mk 1 (Some "early") None (Some TODO) (Some MEDIUM) (Some 10) 0 (Some 3) (Some 1).

Definition late_task : Task.t :=
  Task.mk 2 (Some "late") None (Some TODO) (Some MEDIUM) (Some 30) 0 (Some 3) (Some 1).

Definition board : DB := mkDB [alice; root; bob; carol] [early_task; late_task] [].






(** The store after task [pk] has been deleted, and after it has been
    updated with [up_task]. *)
Definition without_Task (pk : Z) (db : DB) : DB :=
  mkDB (users db) (filter (fun t => Task.id t != pk) (tasks db)) (comments db).

Definition with_Task_updated (pk : Z) (up_task : TaskUpdate.t) (db : DB) : DB :=
  mkDB (users db)
       (map (fun t => if Task.id t == pk then setattrs up_task t else t) (tasks db))
       (comments db).

Definition new_status (st : TaskStatus) : TaskUpdate.t :=
  TaskUpdate.mk None None (Some (Some st)) None None None.







Definition fresh_task : TaskCreate.t :=
  TaskCreate.mk "fresh" None TODO HIGH (Some 50) (Some 1).

Definition second_early : TaskCreate.t :=
  TaskCreate.mk "early" None TODO LOW None (Some 1).

(* ------------------------------------------------------------------ *)
(** * Properties *)

(** ** Equality tests *)

Lemma eqb_eq (A : Type) `{EqDec A} (x y : A) : (x == y) = true <-> x = y.
Proof. unfold eqb; destruct (eq_dec x y); split; congruence. Qed.

Lemma eqb_neq (A : Type) `{EqDec A} (x y : A) : (x == y) = false <-> x <> y.
Proof. unfold eqb; destruct (eq_dec x y); split; congruence. Qed.

Lemma eqb_refl (A : Type) `{EqDec A} (x : A) : (x == x) = true.
Proof. now apply eqb_eq. Qed.

(** ** Tables and constraints *)

Lemma find_none_all (A : Type) (p : A -> bool) (l : list A) :
  (forall x, In x l -> p x = false) -> find p l = None.
Proof.
  induction l as [|a l IH]; simpl; intros Hall; [reflexivity|].
  rewrite (Hall a (or_introl eq_refl)). apply IH. intros x Hx. apply Hall. now right.
Qed.

Lemma next_id_above (ids : list Z) (x : Z) : In x ids -> x < next_id ids.
Proof.
  unfold next_id. induction ids as [|a ids IH]; cbn [fold_right In]; [tauto|].
  intros [->|Hx]; [lia|]. specialize (IH Hx). lia.
Qed.

Lemma existsb_eqb_false (A : Type) `{EqDec A} (x : option A) (l : list (option A)) :
  ~ In x l -> existsb (fun y => y == x) l = false.
Proof.
  intros Hn. induction l as [|a l IH]; simpl; [reflexivity|].
  rewrite IH by (intros Hin; apply Hn; now right).
  rewrite orb_false_r. apply eqb_neq. intros ->. apply Hn. now left.
Qed.

Lemma unique_snoc (A : Type) `{EqDec A} (l : list (option A)) (x : A) :
  unique l = true -> ~ In (Some x) l -> unique (l ++ [Some x]) = true.
Proof.
  induction l as [|[a|] l IH]; simpl; intros Hu Hn.
  - reflexivity.
  - apply andb_true_iff in Hu as [Ha Hu].
    rewrite IH by tauto. rewrite andb_true_r.
    rewrite existsb_app, negb_orb. simpl. rewrite Ha. simpl.
    rewrite orb_false_r. apply negb_true_iff, eqb_neq.
    intros Heq. apply Hn. left. now rewrite Heq.
  - apply IH; tauto.
Qed.

Lemma primary_key_snoc (ids : list Z) :
  primary_key ids = true -> primary_key (ids ++ [next_id ids]) = true.
Proof.
  unfold primary_key. intros Hu. rewrite map_app. simpl.
  apply unique_snoc; [exact Hu|].
  intros Hin. apply in_map_iff in Hin as (x & Hx & Hin).
  injection Hx as ->. apply next_id_above in Hin. lia.
Qed.

Lemma unique_snoc_None (A : Type) `{EqDec A} (l : list (option A)) :
  unique (l ++ [None]) = unique l.
Proof.
  induction l as [|[a|] l IH]; simpl; [reflexivity | | exact IH].
  rewrite IH, existsb_app. simpl. now rewrite !orb_false_r.
Qed.

Lemma constraints_ok_add_User (db : DB) (u : User.t) :
  constraints_ok db = true ->
  User.id u = next_id (map User.id (users db)) ->
  (forall e, User.email u = Some e -> ~ In (Some e) (map User.email (users db))) ->
  (forall n, User.username u = Some n -> ~ In (Some n) (map User.username (users db))) ->
  constraints_ok (mkDB (users db ++ [u]) (tasks db) (comments db)) = true.
Proof.
  unfold constraints_ok. cbn [users tasks comments].
  intros Hok Hid Hemail Hname.
  apply andb_true_iff in Hok as [Hok Hcid].
  apply andb_true_iff in Hok as [Hok Htitle].
  apply andb_true_iff in Hok as [Hok Htid].
  apply andb_true_iff in Hok as [Hok Huname].
  apply andb_true_iff in Hok as [Huid Huemail].
  rewrite !map_app. cbn [map].
  repeat (apply andb_true_iff; split); try assumption.
  - rewrite Hid. now apply primary_key_snoc.
  - destruct (User.email u) as [e|] eqn:He.
    + apply unique_snoc; [assumption | now apply Hemail].
    + now rewrite unique_snoc_None.
  - destruct (User.username u) as [n|] eqn:Hn.
    + apply unique_snoc; [assumption | now apply Hname].
    + now rewrite unique_snoc_None.
Qed.

(** ** Registration *)

Section RegisterFacts.
Context {E : Externals}.

(** C1, as amended: whatever role the request carries, when neither the
    email nor the username is taken [register] stores and returns the new
    user with the default role [USER]. *)
Theorem register_stores_default_role (now : datetime) (user_data : UserCreate.t) (db : DB) :
  constraints_ok db = true ->
  (forall u, In u (users db) -> User.email u <> Some (UserCreate.email user_data)) ->
  (forall u, In u (users db) -> User.username u <> Some (UserCreate.username user_data)) ->
  let user :=
    User.mk (next_id (map User.id (users db)))
            (Some (UserCreate.email user_data))
            (Some (UserCreate.username user_data))
            (Some (hash_password (UserCreate.password user_data)))
            (Some USER) now in
  register now user_data (open_session db)
  = (Return user, open_session (mkDB (users db ++ [user]) (tasks db) (comments db))).
Proof.
  intros Hok Hemail Hname user.
  unfold register, bind, query_User_first, open_session. cbn [pending stored].
  rewrite find_none_all.
  2:{ intros u Hu. apply eqb_neq. now apply Hemail. }
  unfold add_User, commit. cbn [pending stored users tasks comments].
  fold user. unfold User_role_default.
  rewrite constraints_ok_add_User; try assumption; try reflexivity.
  - intros e He Hin. apply in_map_iff in Hin as (u & Hu & Hin).
    apply (Hemail u Hin). rewrite Hu. cbn in He. congruence.
  - intros n Hn Hin. apply in_map_iff in Hin as (u & Hu & Hin).
    apply (Hname u Hin). rewrite Hu. cbn in Hn. congruence.
Qed.

End RegisterFacts.

Lemma register_stores_default_role_witness :
  register (E := example_externals) 100 mallory (open_session empty_db)
  = (Return (User.mk 1 (Some "mallory@x.com") (Some "mallory") (Some "sha256:pw")
                     (Some USER) 100),
     open_session
       (mkDB [User.mk 1 (Some "mallory@x.com") (Some "mallory") (Some "sha256:pw")
                      (Some USER) 100] [] [])).
Proof.
  apply (register_stores_default_role (E := example_externals) 100 mallory empty_db).
  - reflexivity.
  - simpl; tauto.
  - simpl; tauto.
Defined.

(** C1, as stated, fails: a registration that asks for [SUPERADMIN] on an
    empty store succeeds and the user it stores has role [USER]. *)
Lemma register_ignores_requested_role :
  exists (u : User.t) (s' : Session),
    register (E := example_externals) 100 mallory (open_session empty_db) = (Return u, s')
    /\ In u (users (stored s'))
    /\ User.role u <> Some (UserCreate.role mallory).
Proof.
  eexists. eexists. split; [lazy; reflexivity|]. split.
  - simpl. left. reflexivity.
  - simpl. discriminate.
Qed.

(* ------------------------------------------------------------------ *)
(** ** Login *)

Section LoginFacts.
Context {E : Externals}.

Lemma verify_password_false (plain : string) (hashed : option string) :
  verify_password plain hashed = false <-> hashed <> Some (sha256_hexdigest plain).
Proof.
  unfold verify_password. rewrite eqb_neq. split; intros H1 H2; apply H1; congruence.
Qed.

(** C7: a login with an email no user has, and a login with the email of a
    user but a password whose hash is not the stored one, both raise the same
    exception, 401 with detail "Invalid credentials", set no cookie and leave
    the session as it was. *)
Theorem login_failures_indistinguishable
    (clock1 clock2 : Clock.t) (unknown wrong : LoginRequest.t)
    (response1 response2 : Response) (s1 s2 : Session) (user : User.t) :
  (forall u, In u (users (pending s1)) ->
             User.email u <> Some (LoginRequest.email unknown)) ->
  In user (users (pending s2)) ->
  User.email user = Some (LoginRequest.email wrong) ->
  (forall u, In u (users (pending s2)) ->
             User.email u = Some (LoginRequest.email wrong) ->
             User.hashed_password u
             <> Some (sha256_hexdigest (LoginRequest.password wrong))) ->
  login clock1 unknown response1 s1
    = (Raise (HTTPException 401 "Invalid credentials"), s1)
  /\ login clock2 wrong response2 s2
    = (Raise (HTTPException 401 "Invalid credentials"), s2)
  /\ fst (login clock1 unknown response1 s1) = fst (login clock2 wrong response2 s2).
Proof.
  intros Hunknown Hin Hemail Hwrong.
  assert (H1 : login clock1 unknown response1 s1
               = (Raise (HTTPException 401 "Invalid credentials"), s1)).
  { unfold login, bind, query_User_first.
    rewrite find_none_all; [reflexivity|].
    intros u Hu. apply eqb_neq. now apply Hunknown. }
  assert (H2 : login clock2 wrong response2 s2
               = (Raise (HTTPException 401 "Invalid credentials"), s2)).
  { unfold login, bind, query_User_first.
    destruct (find _ (users (pending s2))) as [u|] eqn:Hfind; [|reflexivity].
    apply find_some in Hfind as [Hu Hp]. apply eqb_eq in Hp.
    assert (Hv : verify_password (LoginRequest.password wrong) (User.hashed_password u)
                 = false) by (apply verify_password_false; now apply Hwrong).
    rewrite Hv. reflexivity. }
  rewrite H1, H2. repeat split.
Qed.

End LoginFacts.

Lemma login_failures_indistinguishable_witness :
  login (E := example_externals) (Clock.mk 10 10)
        (LoginRequest.mk "nobody@x.com" "pw1") [] (open_session people)
    = (Raise (HTTPException 401 "Invalid credentials"), open_session people)
  /\ login (E := example_externals) (Clock.mk 20 20)
        (LoginRequest.mk "alice@x.com" "guess") [] (open_session people)
    = (Raise (HTTPException 401 "Invalid credentials"), open_session people)
  /\ fst (login (E := example_externals) (Clock.mk 10 10)
            (LoginRequest.mk "nobody@x.com" "pw1") [] (open_session people))
     = fst (login (E := example_externals) (Clock.mk 20 20)
            (LoginRequest.mk "alice@x.com" "guess") [] (open_session people)).
Proof.
  apply (login_failures_indistinguishable (E := example_externals)
           (Clock.mk 10 10) (Clock.mk 20 20)
           (LoginRequest.mk "nobody@x.com" "pw1") (LoginRequest.mk "alice@x.com" "guess")
           [] [] (open_session people) (open_session people) alice).
  - simpl. intros u [<-|[<-|[<-|[<-|[]]]]]; simpl; discriminate.
  - simpl. now left.
  - reflexivity.
  - simpl. intros u [<-|[<-|[<-|[<-|[]]]]]; simpl; discriminate.
Defined.

(* ------------------------------------------------------------------ *)
(** ** Token refresh *)

Section RefreshFacts.
Context {E : Externals}.





End RefreshFacts.

(** The expiry that [refresh] skips is the one the session check applies:
    the token issued at time 0 no longer authenticates at time 5000000. *)
Lemma get_current_user_rejects_expired :
  get_current_user (E := example_externals) 5000000 (request_with old_token)
                   (open_session people)
  = (Raise (HTTPException 401 "Invalid token"), open_session people).
Proof. reflexivity. Qed.


(* ------------------------------------------------------------------ *)
(** ** What a handler leaves of the store when it raises *)

Lemma keeps_store_ret (A : Type) (a : A) : keeps_store (ret a).
Proof. intros s; reflexivity. Qed.

Lemma keeps_store_raise (A : Type) (e : Exception) : keeps_store (raise (A := A) e).
Proof. intros s; reflexivity. Qed.

Lemma keeps_store_raise_if (cond : bool) (e : Exception) : keeps_store (raise_if cond e).
Proof. intros s; unfold raise_if; destruct cond; reflexivity. Qed.

Lemma keeps_store_query_User_first (p : User.t -> bool) : keeps_store (query_User_first p).
Proof. intros s; reflexivity. Qed.

Lemma keeps_store_query_Task_first (p : Task.t -> bool) : keeps_store (query_Task_first p).
Proof. intros s; reflexivity. Qed.

Lemma keeps_store_setattr_User (pk : Z) (f : User.t -> User.t) :
  keeps_store (setattr_User pk f).
Proof. intros s; reflexivity. Qed.

Lemma keeps_store_bind (A B : Type) (c : M A) (k : A -> M B) :
  keeps_store c -> (forall a, keeps_store (k a)) -> keeps_store (bind c k).
Proof.
  intros Hc Hk s. unfold bind. specialize (Hc s).
  destruct (c s) as [[a|e] s1]; simpl in *.
  - now rewrite Hk.
  - exact Hc.
Qed.

Lemma keeps_store_raise_keeps (A : Type) (c : M A) :
  keeps_store c -> raise_keeps_store c.
Proof. intros Hc s e s' Heq. specialize (Hc s). now rewrite Heq in Hc. Qed.

Lemma raise_keeps_store_bind (A B : Type) (c : M A) (k : A -> M B) :
  keeps_store c -> (forall a, raise_keeps_store (k a)) -> raise_keeps_store (bind c k).
Proof.
  intros Hc Hk s e s' Heq. unfold bind in Heq. specialize (Hc s).
  destruct (c s) as [[a|e1] s1]; simpl in *.
  - rewrite <- Hc. now apply (Hk a s1 e).
  - injection Heq as _ <-. exact Hc.
Qed.

Lemma raise_keeps_store_commit (A : Type) (k : M A) :
  never_raises k -> raise_keeps_store (bind commit (fun _ => k)).
Proof.
  intros Hk s e s' Heq. unfold bind, commit in Heq.
  destruct (constraints_ok (pending s)).
  - now apply Hk in Heq.
  - now injection Heq as _ <-.
Qed.

Lemma never_raises_ret (A : Type) (a : A) : never_raises (ret a).
Proof. intros s e s'; unfold ret; discriminate. Qed.

Lemma never_raises_refresh_User (u : User.t) : never_raises (refresh_User u).
Proof.
  intros s e s'. unfold refresh_User.
  destruct (find _ (users (pending s))); discriminate.
Qed.

Create HintDb store discriminated.
#[export] Hint Resolve keeps_store_ret keeps_store_raise keeps_store_raise_if
  keeps_store_query_User_first keeps_store_query_Task_first
  keeps_store_setattr_User keeps_store_bind
  never_raises_ret never_raises_refresh_User : store.

Section UpdateUserFacts.
Context {E : Externals}.

Lemma keeps_store_update_email (user_id : Z) (user : User.t) (update_data : UpdateData.t) :
  keeps_store (update_email user_id user update_data).
Proof.
  unfold update_email. destruct (UpdateData.email update_data); auto with store.
  destruct (_ != _); auto 6 with store.
Qed.

Lemma keeps_store_update_username (user_id : Z) (update_data : UpdateData.t) :
  keeps_store (update_username user_id update_data).
Proof. unfold update_username. destruct (UpdateData.username update_data); auto with store. Qed.

Lemma keeps_store_update_role (user_id : Z) (is_self_update : bool)
    (update_data : UpdateData.t) :
  keeps_store (update_role user_id is_self_update update_data).
Proof. unfold update_role. destruct (UpdateData.role update_data); auto with store. Qed.

Lemma keeps_store_update_password (user_id : Z) (is_self_update : bool)
    (current_user : User.t) (update_data : UpdateData.t) :
  keeps_store (update_password user_id is_self_update current_user update_data).
Proof.
  unfold update_password. destruct (UpdateData.password update_data); auto with store.
  destruct is_self_update; auto with store.
Qed.

Lemma raise_keeps_store_apply_update_data (user_id : Z) (current_user user : User.t)
    (is_self_update : bool) (update_data : UpdateData.t) :
  raise_keeps_store
    (apply_update_data user_id current_user user is_self_update update_data).
Proof.
  unfold apply_update_data.
  apply raise_keeps_store_bind; [apply keeps_store_update_email | intros _].
  apply raise_keeps_store_bind; [apply keeps_store_update_username | intros _].
  apply raise_keeps_store_bind; [apply keeps_store_update_role | intros _].
  apply raise_keeps_store_bind; [apply keeps_store_update_password | intros _].
  apply raise_keeps_store_commit. apply never_raises_refresh_User.
Qed.

(** C6: when the privileged update raises, on whichever rule, the
    committed store is what it was before the call, so the target's stored
    record is unchanged; the same holds for the body of the handler on any
    dictionary, one with a [password] key included. *)
Theorem update_user_failure_keeps_store
    (user_id : Z) (user_data : SUPERADMINUserUpdate.t) (update_data : UpdateData.t)
    (current_user user : User.t) (is_self_update : bool)
    (s s' : Session) (e : Exception) :
  (update_user user_id user_data current_user s = (Raise e, s') ->
   stored s' = stored s
   /\ find (fun u => User.id u == user_id) (users (close_session s'))
      = find (fun u => User.id u == user_id) (users (stored s)))
  /\ (apply_update_data user_id current_user user is_self_update update_data s
        = (Raise e, s') ->
      stored s' = stored s).
Proof.
  split.
  - intros Hrun.
    assert (Hs : stored s' = stored s).
    { revert s e s' Hrun. change (raise_keeps_store (update_user user_id user_data current_user)).
      unfold update_user.
      apply raise_keeps_store_bind; [auto with store | intros _].
      apply raise_keeps_store_bind; [auto with store | intros [u|]].
      - apply raise_keeps_store_apply_update_data.
      - apply keeps_store_raise_keeps; auto with store. }
    split; [exact Hs|]. unfold close_session. now rewrite Hs.
  - apply raise_keeps_store_apply_update_data.
Qed.


Lemma find_map_by_id (pk : Z) (f : User.t -> User.t) (l : list User.t) :
  (forall u, User.id (f u) = User.id u) ->
  find (fun u => User.id u == pk) (map (fun u => if User.id u == pk then f u else u) l)
  = option_map f (find (fun u => User.id u == pk) l).
Proof.
  intros Hid. induction l as [|a l IH]; simpl; [reflexivity|].
  destruct (User.id a == pk) eqn:Ha.
  - rewrite Hid, Ha. reflexivity.
  - rewrite Ha. exact IH.
Qed.

Lemma pending_User_setattr (pk : Z) (f : User.t -> User.t) (s : Session) :
  (forall u, User.id (f u) = User.id u) ->
  pending_User pk (snd (setattr_User pk f s)) = option_map f (pending_User pk s).
Proof. intros Hid. unfold pending_User. simpl. now apply find_map_by_id. Qed.

(** The email step either raises the duplicate-email error and changes
    nothing, or returns, having changed at most the email of the row. *)
Lemma update_email_cases (user_id : Z) (user : User.t) (update_data : UpdateData.t)
    (s : Session) :
  update_email user_id user update_data s
    = (Raise (HTTPException 400 "Email already registered"), s)
  \/ exists s1 g,
       update_email user_id user update_data s = (Return tt, s1)
       /\ stored s1 = stored s
       /\ pending_User user_id s1 = option_map g (pending_User user_id s)
       /\ (forall u, User.id (g u) = User.id u /\ User.role (g u) = User.role u
                     /\ User.hashed_password (g u) = User.hashed_password u)
       /\ (UpdateData.email update_data = None -> s1 = s).
Proof.
  unfold update_email.
  destruct (UpdateData.email update_data) as [new_email|].
  2:{ right. exists s, (fun u => u). repeat split.
      now destruct (pending_User user_id s). }
  destruct (new_email != User.email user).
  2:{ right. exists s, (fun u => u). repeat split.
      now destruct (pending_User user_id s). }
  unfold bind, query_User_first, raise_if.
  destruct (find _ (users (pending s))) as [existing|].
  - destruct (User.id existing != user_id).
    + now left.
    + right. eexists. exists (set_email new_email). split; [reflexivity|].
      split; [reflexivity|]. split; [now apply pending_User_setattr|].
      split; [now intros u | discriminate].
  - right. eexists. exists (set_email new_email). split; [reflexivity|].
    split; [reflexivity|]. split; [now apply pending_User_setattr|].
    split; [now intros u | discriminate].
Qed.

Lemma update_username_cases (user_id : Z) (update_data : UpdateData.t) (s : Session) :
  exists s1 g,
    update_username user_id update_data s = (Return tt, s1)
    /\ stored s1 = stored s
    /\ pending_User user_id s1 = option_map g (pending_User user_id s)
    /\ (forall u, User.id (g u) = User.id u /\ User.role (g u) = User.role u
                  /\ User.hashed_password (g u) = User.hashed_password u)
    /\ (UpdateData.username update_data = None -> s1 = s).
Proof.
  unfold update_username.
  destruct (UpdateData.username update_data) as [new_username|].
  - eexists. exists (set_username new_username). split; [reflexivity|].
    split; [reflexivity|]. split; [now apply pending_User_setattr|].
    split; [now intros u | discriminate].
  - exists s, (fun u => u). repeat split. now destruct (pending_User user_id s).
Qed.

Lemma constraints_ok_set_role (pk : Z) (new_role : option UserRole) (db : DB) :
  constraints_ok
    (mkDB (map (fun u => if User.id u == pk then set_role new_role u else u) (users db))
          (tasks db) (comments db))
  = constraints_ok db.
Proof.
  unfold constraints_ok. cbn [users tasks comments]. rewrite !map_map.
  assert (Hid : map (fun u => User.id (if User.id u == pk then set_role new_role u else u))
                    (users db) = map User.id (users db))
    by (apply map_ext; intros u; now destruct (User.id u == pk)).
  assert (Hem : map (fun u => User.email (if User.id u == pk then set_role new_role u else u))
                    (users db) = map User.email (users db))
    by (apply map_ext; intros u; now destruct (User.id u == pk)).
  assert (Hun : map (fun u => User.username (if User.id u == pk then set_role new_role u else u))
                    (users db) = map User.username (users db))
    by (apply map_ext; intros u; now destruct (User.id u == pk)).
  now rewrite Hid, Hem, Hun.
Qed.

(** C3: with a SUPERADMIN acting and a role in the request, an update of
    the actor's own record always raises an HTTP error and stores nothing
    (the role error itself once the target is found and the email rule is
    not in play); an update of another stored user is never stopped by the
    role rule: it raises only for a duplicate email or a violated unique
    constraint, and otherwise returns the user with the requested role,
    which is then the stored role. A request that sets the role alone on a
    consistent store succeeds. *)
Theorem update_user_role_rule
    (user_id : Z) (user_data : SUPERADMINUserUpdate.t) (current_user : User.t)
    (new_role : option UserRole) (db : DB) :
  User.role current_user = Some SUPERADMIN ->
  SUPERADMINUserUpdate.role user_data = Some new_role ->
  let run := update_user user_id user_data current_user (open_session db) in
  (user_id = User.id current_user ->
     (exists status detail, fst run = Raise (HTTPException status detail))
     /\ stored (snd run) = db
     /\ (stored_User user_id db <> None ->
         SUPERADMINUserUpdate.email user_data = None ->
         fst run = Raise (HTTPException 400 "Superadmin cannot change own role")))
  /\ (user_id <> User.id current_user ->
      forall user, stored_User user_id db = Some user ->
        (fst run = Raise (HTTPException 400 "Email already registered")
         \/ fst run = Raise IntegrityError
         \/ exists user', fst run = Return user' /\ User.role user' = new_role
                          /\ stored_User user_id (stored (snd run)) = Some user')
        /\ (constraints_ok db = true ->
            SUPERADMINUserUpdate.email user_data = None ->
            SUPERADMINUserUpdate.username user_data = None ->
            fst run = Return (set_role new_role user)
            /\ stored_User user_id (stored (snd run)) = Some (set_role new_role user))).
Proof.
  intros Hactor Hrole run.
  assert (Hrun : run = match stored_User user_id db with
                       | None => (Raise (HTTPException 404 "User doesn't exist"),
                                  open_session db)
                       | Some user =>
                           apply_update_data user_id current_user user
                             (User.id current_user == user_id)
                             (model_dump_exclude_unset user_data) (open_session db)
                       end).
  { unfold run, update_user, bind, raise_if. rewrite Hactor, eqb_refl. cbn [negb].
    unfold ret, query_User_first, stored_User. cbn [open_session pending].
    now destruct (find _ (users db)). }
  set (ud := model_dump_exclude_unset user_data) in Hrun.
  assert (Hud : UpdateData.role ud = Some new_role) by exact Hrole.
  split.
  - (* the actor's own record *)
    intros Hself.
    assert (Heqb : (User.id current_user == user_id) = true)
      by (apply eqb_eq; congruence).
    rewrite Heqb in Hrun. rewrite Hrun. clear Hrun run.
    destruct (stored_User user_id db) as [user|] eqn:Hfound.
    2:{ split; [now eexists; eexists|]. split; [reflexivity|]. now intros []. }
    unfold apply_update_data, bind.
    destruct (update_email_cases user_id user ud (open_session db))
      as [Hemail | (s1 & g1 & Hemail & Hst1 & _ & _ & Hsame1)]; rewrite Hemail.
    + split; [now eexists; eexists|]. split; [reflexivity|].
      intros _ Hnone. exfalso. revert Hemail. unfold update_email.
      change (UpdateData.email ud) with (SUPERADMINUserUpdate.email user_data).
      rewrite Hnone. discriminate.
    + destruct (update_username_cases user_id ud s1)
        as (s2 & g2 & Hname & Hst2 & _ & _ & _); rewrite Hname.
      unfold update_role. rewrite Hud. unfold bind, raise_if, raise. cbn [fst snd].
      split; [now eexists; eexists|]. split; [now rewrite Hst2, Hst1|].
      reflexivity.
  - (* another user's record *)
    intros Hother user Hfound. rewrite Hfound in Hrun.
    assert (Hself : (User.id current_user == user_id) = false)
      by (apply eqb_neq; congruence).
    rewrite Hself in Hrun. rewrite Hrun. clear Hrun run.
    unfold apply_update_data, bind.
    destruct (update_email_cases user_id user ud (open_session db))
      as [Hemail | (s1 & g1 & Hemail & Hst1 & Hrow1 & Hg1 & Hsame1)]; rewrite Hemail.
    + split; [now left|]. intros _ Hnone _. exfalso. revert Hemail. unfold update_email.
      change (UpdateData.email ud) with (SUPERADMINUserUpdate.email user_data).
      rewrite Hnone. discriminate.
    + destruct (update_username_cases user_id ud s1)
        as (s2 & g2 & Hname & Hst2 & Hrow2 & Hg2 & Hsame2); rewrite Hname.
      unfold update_role. rewrite Hud. unfold bind, raise_if, ret.
      pose proof (pending_User_setattr user_id (set_role new_role) s2
                    (fun u => eq_refl)) as Hrow3.
      destruct (setattr_User user_id (set_role new_role) s2) as [r3 s3] eqn:Hset.
      assert (Hr3 : r3 = Return tt) by (unfold setattr_User in Hset; congruence).
      subst r3. cbn [snd] in Hrow3.
      unfold update_password. cbn [ud model_dump_exclude_unset UpdateData.password].
      unfold commit, ret. cbv beta iota.
      assert (Hrow : pending_User user_id s3 = Some (set_role new_role (g2 (g1 user)))).
      { rewrite Hrow3, Hrow2, Hrow1. unfold pending_User, open_session. cbn [pending].
        unfold stored_User in Hfound. now rewrite Hfound. }
      assert (Hid : User.id user = user_id).
      { unfold stored_User in Hfound. apply find_some in Hfound as [_ Hp].
        now apply eqb_eq in Hp. }
      split.
      * destruct (constraints_ok (pending s3)); [|right; now left].
        right; right. unfold refresh_User. cbn [pending].
        rewrite Hid. fold (pending_User user_id s3). rewrite Hrow.
        eexists. split; [reflexivity|]. split; [reflexivity|].
        cbn [fst snd stored]. exact Hrow.
      * intros Hok Hnone1 Hnone2.
        assert (s1 = open_session db) by (apply Hsame1; exact Hnone1). subst s1.
        assert (s2 = open_session db) by (apply Hsame2; exact Hnone2). subst s2.
        unfold setattr_User in Hset. injection Hset as <-.
        cbn [pending open_session stored]. rewrite constraints_ok_set_role, Hok.
        unfold refresh_User. cbn [pending users]. rewrite Hid.
        rewrite find_map_by_id by reflexivity.
        unfold stored_User in Hfound. rewrite Hfound. cbn [option_map fst snd stored].
        split; [reflexivity|]. unfold stored_User. cbn [users].
        rewrite find_map_by_id by reflexivity. now rewrite Hfound.
Qed.

Lemma hashes_setattr_User (pk : Z) (f : User.t -> User.t) (s : Session) :
  (forall u, User.hashed_password (f u) = User.hashed_password u) ->
  map User.hashed_password (users (pending (snd (setattr_User pk f s))))
  = map User.hashed_password (users (pending s)).
Proof.
  intros Hf. simpl. rewrite map_map. apply map_ext.
  intros u. now destruct (User.id u == pk).
Qed.

(** The password branch of the handler's body, on a dictionary that has
    the key: another user's password is refused, one's own is replaced by
    the hash of the new one once the current one verifies. *)
Lemma update_password_branch (user_id : Z) (is_self_update : bool)
    (current_user : User.t) (update_data : UpdateData.t)
    (password_data : PasswordData.t) (s : Session) :
  UpdateData.password update_data = Some password_data ->
  update_password user_id is_self_update current_user update_data s
  = if is_self_update then
      if verify_password (PasswordData.current_password password_data)
                         (User.hashed_password current_user)
      then setattr_User user_id
             (set_hashed_password
                (Some (hash_password (PasswordData.new_password password_data)))) s
      else (Raise (HTTPException 400 "Current password is incorrect"), s)
    else (Raise (HTTPException 400 "Superadmin cannot change other users' passwords"), s).
Proof.
  intros Hkey. unfold update_password. rewrite Hkey.
  destruct is_self_update; [|reflexivity].
  unfold bind, raise_if.
  now destruct (verify_password _ _).
Qed.

(** The handler itself never reaches that branch: whatever the validated
    request, no stored password hash changes and neither password error is
    raised. *)
Lemma update_user_never_touches_password
    (user_id : Z) (user_data : SUPERADMINUserUpdate.t) (current_user : User.t) (db : DB) :
  let run := update_user user_id user_data current_user (open_session db) in
  map User.hashed_password (users (stored (snd run))) = map User.hashed_password (users db)
  /\ fst run <> Raise (HTTPException 400 "Current password is incorrect")
  /\ fst run <> Raise (HTTPException 400 "Superadmin cannot change other users' passwords").
Proof.
  intros run. unfold run, update_user, bind, raise_if.
  destruct (User.role current_user != Some SUPERADMIN);
    [repeat split; discriminate|].
  unfold ret, query_User_first. cbn [open_session pending].
  destruct (find _ (users db)) as [user|]; [|repeat split; discriminate].
  set (ud := model_dump_exclude_unset user_data).
  unfold apply_update_data, bind.
  destruct (update_email_cases user_id user ud (open_session db))
    as [Hemail | (s1 & g1 & Hemail & Hst1 & _ & _ & _)]; rewrite Hemail;
    [repeat split; discriminate|].
  assert (H1 : map User.hashed_password (users (pending s1))
               = map User.hashed_password (users db)).
  { revert Hemail. unfold update_email.
    destruct (UpdateData.email ud) as [new_email|]; [|now intros [= <-]].
    destruct (new_email != User.email user); [|now intros [= <-]].
    unfold bind, query_User_first, raise_if.
    destruct (find _ _) as [existing|].
    - destruct (User.id existing != user_id); [discriminate|].
      intros [= <-]. cbn [pending users open_session].
      rewrite map_map. apply map_ext. intros u. now destruct (User.id u == user_id).
    - intros [= <-]. cbn [pending users open_session].
      rewrite map_map. apply map_ext. intros u. now destruct (User.id u == user_id). }
  destruct (update_username_cases user_id ud s1)
    as (s2 & g2 & Hname & Hst2 & _ & _ & _); rewrite Hname.
  assert (H2 : map User.hashed_password (users (pending s2))
               = map User.hashed_password (users db)).
  { revert Hname. unfold update_username.
    destruct (UpdateData.username ud) as [new_username|]; [|intros [= <-]; exact H1].
    intros [= <-]. rewrite <- H1. now apply hashes_setattr_User. }
  unfold update_role.
  destruct (UpdateData.role ud) as [new_role|].
  - unfold bind, raise_if.
    destruct (User.id current_user == user_id); [repeat split; try discriminate|].
    + cbn [raise fst snd]. now rewrite Hst2, Hst1.
    + unfold ret. cbv beta iota.
      assert (H3 : map User.hashed_password
                     (users (pending (snd (setattr_User user_id (set_role new_role) s2))))
                   = map User.hashed_password (users db))
        by (rewrite <- H2; now apply hashes_setattr_User).
      destruct (setattr_User user_id (set_role new_role) s2) as [r3 s3] eqn:Hset.
      assert (Hr3 : r3 = Return tt) by (unfold setattr_User in Hset; congruence).
      subst r3. cbn [snd] in H3.
      unfold update_password. cbn [ud model_dump_exclude_unset UpdateData.password].
      unfold commit, ret. cbv beta iota.
      assert (Hst3 : stored s3 = stored s2)
        by (unfold setattr_User in Hset; injection Hset as <-; reflexivity).
      destruct (constraints_ok (pending s3)).
      * unfold refresh_User. cbn [pending].
        destruct (find _ (users (pending s3))); cbn [fst snd stored];
          repeat split; try discriminate; exact H3.
      * cbn [fst snd]. rewrite Hst3, Hst2, Hst1. repeat split; discriminate.
  - unfold update_password. cbn [ud model_dump_exclude_unset UpdateData.password].
    unfold commit, ret. cbv beta iota.
    destruct (constraints_ok (pending s2)).
    + unfold refresh_User. cbn [pending].
      destruct (find _ (users (pending s2))); cbn [fst snd stored];
        repeat split; try discriminate; exact H2.
    + cbn [fst snd]. rewrite Hst2, Hst1. repeat split; discriminate.
Qed.

(** C2 against the code: [SUPERADMINUserUpdate] declares no [password], so
    validation drops the key and the password rules are never consulted. A
    SUPERADMIN's request to change another user's password, and one to
    change their own with the right current password, both return
    normally and leave every stored hash as it was. *)
Theorem put_user_ignores_password :
  put_user 1 (password_body "anything" "hacked") root (open_session people)
    = (Return alice, open_session people)
  /\ put_user 2 (password_body "toor" "n3w") root (open_session people)
    = (Return root, open_session people).
Proof. split; reflexivity. Qed.

End UpdateUserFacts.

Lemma update_user_role_rule_witness :
  fst (update_user (E := example_externals) 2 (role_only USER) root (open_session people))
    = Raise (HTTPException 400 "Superadmin cannot change own role")
  /\ fst (update_user (E := example_externals) 1 (role_only ADMIN) root (open_session people))
    = Return (set_role (Some ADMIN) alice)
  /\ stored_User 1
       (stored (snd (update_user (E := example_externals) 1 (role_only ADMIN) root
                       (open_session people))))
    = Some (set_role (Some ADMIN) alice).
Proof.
  split.
  - pose proof (update_user_role_rule (E := example_externals) 2 (role_only USER) root
                  (new_role := Some USER) people eq_refl eq_refl) as [Hself _].
    destruct (Hself eq_refl) as (_ & _ & H).
    apply H; [discriminate | reflexivity].
  - pose proof (update_user_role_rule (E := example_externals) 1 (role_only ADMIN) root
                  (new_role := Some ADMIN) people eq_refl eq_refl) as [_ Hother].
    assert (Hne : 1 <> User.id root) by discriminate.
    destruct (Hother Hne alice eq_refl) as [_ H].
    exact (H eq_refl eq_refl eq_refl).
Defined.

(** When the role rule stops a request that also carries a new email, the
    session has already assigned the email; the committed store has not
    seen it. *)
Lemma update_user_assigns_before_checking :
  update_user (E := example_externals) 2 (email_and_role "new@x.com" USER) root
              (open_session people)
  = (Raise (HTTPException 400 "Superadmin cannot change own role"), root_moved).
Proof. reflexivity. Qed.

Lemma update_user_failure_keeps_store_witness :
  (stored root_moved = stored (open_session people)
   /\ find (fun u => User.id u == 2) (users (close_session root_moved))
      = find (fun u => User.id u == 2) (users (stored (open_session people))))
  /\ stored (open_session people) = stored (open_session people).
Proof.
  pose proof (update_user_failure_keeps_store (E := example_externals) 2
                (email_and_role "new@x.com" USER)
                (UpdateData.mk None None None (Some (PasswordData.mk "guess" "n3w")))
                root root true (open_session people) root_moved
                (HTTPException 400 "Superadmin cannot change own role")) as [H1 _].
  pose proof (update_user_failure_keeps_store (E := example_externals) 2
                (email_and_role "new@x.com" USER)
                (UpdateData.mk None None None (Some (PasswordData.mk "guess" "n3w")))
                root root true (open_session people) (open_session people)
                (HTTPException 400 "Current password is incorrect")) as [_ H2].
  split; [exact (H1 eq_refl) | exact (H2 eq_refl)].
Defined.

(* ------------------------------------------------------------------ *)
(** ** Task queries *)





(* ------------------------------------------------------------------ *)
(** ** Task creation and comments *)


(** C9: an ADMIN or SUPERADMIN who creates a task without an assignee gets
    422 and nothing is touched; and whenever [create_task] returns, the
    request named an assignee, a user with that id exists, and the task that
    has been stored carries it. *)
Theorem create_task_requires_assignee
    (now : datetime) (task_data : TaskCreate.t) (current_user : User.t) (s : Session) :
  (User.role current_user = Some ADMIN \/ User.role current_user = Some SUPERADMIN ->
   TaskCreate.assignee_id task_data = None ->
   create_task now task_data current_user s
   = (Raise (HTTPException 422 "Assignee user doesn't exists"), s))
  /\ (forall response s',
        create_task now task_data current_user s = (Return response, s') ->
        exists a u t,
          TaskCreate.assignee_id task_data = Some a
          /\ In u (users (pending s)) /\ User.id u = a
          /\ tasks (stored s') = (tasks (pending s) ++ [t])%list
          /\ Task.assignee_id t = Some a).
Proof.
  split.
  - intros Hrole Hnone. unfold create_task, bind, raise_if.
    assert (Hadmin : role_not_admin (User.role current_user) = false)
      by (destruct Hrole as [-> | ->]; reflexivity).
    rewrite Hadmin. unfold ret, query_User_first. rewrite Hnone.
    rewrite find_none_all; [reflexivity|].
    intros u _. now apply eqb_neq.
  - intros response s'. unfold create_task, bind, raise_if.
    destruct (role_not_admin (User.role current_user)); [discriminate|].
    unfold ret, query_User_first.
    destruct (find _ (users (pending s))) as [u|] eqn:Hfind; [|discriminate].
    apply find_some in Hfind as [Hin Hp]. apply eqb_eq in Hp.
    unfold add_Task, commit. cbn [pending stored].
    destruct (constraints_ok _); [|discriminate].
    intros [= _ <-]. cbn [stored tasks].
    exists (User.id u), u. eexists. repeat split; try assumption; now symmetry.
Qed.

Lemma create_task_requires_assignee_witness :
  create_task 7 (TaskCreate.mk "orphan" None TODO HIGH None None) bob (open_session board)
  = (Raise (HTTPException 422 "Assignee user doesn't exists"), open_session board).
Proof.
  apply (create_task_requires_assignee 7 (TaskCreate.mk "orphan" None TODO HIGH None None)
           bob (open_session board)).
  - left. reflexivity.
  - reflexivity.
Defined.




(* ------------------------------------------------------------------ *)
(** ** Task modification and deletion *)

Lemma existsb_map_filter_false (A B : Type) `{EqDec B} (f : A -> option B)
    (p : A -> bool) (x : option B) (l : list A) :
  existsb (fun y => y == x) (map f l) = false ->
  existsb (fun y => y == x) (map f (filter p l)) = false.
Proof.
  induction l as [|a l IH]; simpl; [trivial|].
  intros Hex. apply orb_false_iff in Hex as [Ha Hl].
  destruct (p a); simpl; [rewrite Ha|]; now apply IH.
Qed.

Lemma unique_map_filter (A B : Type) `{EqDec B} (f : A -> option B)
    (p : A -> bool) (l : list A) :
  unique (map f l) = true -> unique (map f (filter p l)) = true.
Proof.
  induction l as [|a l IH]; simpl; [trivial|].
  destruct (f a) as [x|] eqn:Hfa.
  - intros Hu. apply andb_true_iff in Hu as [Hx Hu].
    destruct (p a); simpl; [|now apply IH].
    rewrite Hfa. apply andb_true_iff. split; [|now apply IH].
    apply negb_true_iff. apply existsb_map_filter_false. now apply negb_true_iff.
  - intros Hu. destruct (p a); simpl; [rewrite Hfa|]; now apply IH.
Qed.

Lemma constraints_ok_without_Task (pk : Z) (db : DB) :
  constraints_ok db = true -> constraints_ok (without_Task pk db) = true.
Proof.
  unfold constraints_ok, without_Task, primary_key. cbn [users tasks comments].
  intros Hok.
  apply andb_true_iff in Hok as [Hok Hcid].
  apply andb_true_iff in Hok as [Hok Htitle].
  apply andb_true_iff in Hok as [Hok Htid].
  rewrite Hok, Hcid. cbn [andb]. rewrite andb_true_r.
  apply andb_true_iff. split.
  - rewrite map_map in *. now apply unique_map_filter.
  - now apply unique_map_filter.
Qed.




(* ------------------------------------------------------------------ *)
(** * Further properties of the handlers *)

(** ** Sessions: issuing, checking and renewing tokens *)


Lemma find_exists (A : Type) (p : A -> bool) (l : list A) (x : A) :
  In x l -> p x = true -> exists y, find p l = Some y.
Proof.
  induction l as [|a l IH]; simpl; [tauto|].
  intros [->|Hin] Hp.
  - rewrite Hp. now eexists.
  - destruct (p a); [now eexists | now apply IH].
Qed.


Section SessionFacts.
Context {E : Externals}.







End SessionFacts.

Section AccountFacts.
Context {E : Externals}.


Lemma verify_password_true (plain : string) (hashed : option string) :
  verify_password plain hashed = true <-> hashed = Some (sha256_hexdigest plain).
Proof. unfold verify_password. rewrite eqb_eq. split; congruence. Qed.

(** X4: [login] returns exactly when the first user with the email of the
    request has the hash of the request's password stored and has a role;
    it then answers with the token issued for that user's id and role,
    appends that token as the one http-only [access_token] cookie, and
    leaves the session as it was. *)
Theorem login_success
    (clock : Clock.t) (login_data : LoginRequest.t) (response : Response) (s : Session) :
  (forall user role,
     find (fun u => User.email u == Some (LoginRequest.email login_data))
          (users (pending s)) = Some user ->
     User.hashed_password user
       = Some (sha256_hexdigest (LoginRequest.password login_data)) ->
     User.role user = Some role ->
     login clock login_data response s
     = (Return (Token.mk (create_token clock (User.id user) role),
                (response ++ [Cookie.mk "access_token"
                                        (create_token clock (User.id user) role) true])%list),
        s))
  /\ (forall answer s',
        login clock login_data response s = (Return answer, s') ->
        exists user role,
          find (fun u => User.email u == Some (LoginRequest.email login_data))
               (users (pending s)) = Some user
          /\ User.hashed_password user
             = Some (sha256_hexdigest (LoginRequest.password login_data))
          /\ User.role user = Some role
          /\ Token.access_token (fst answer) = create_token clock (User.id user) role
          /\ s' = s).
Proof.
  split.
  - intros user role Hfind Hhash Hrole.
    unfold login, bind, query_User_first. rewrite Hfind.
    apply verify_password_true in Hhash. rewrite Hhash, Hrole. reflexivity.
  - intros answer s'. unfold login, bind, query_User_first.
    destruct (find _ (users (pending s))) as [user|]; [|discriminate].
    destruct (verify_password _ _) eqn:Hverify; [|discriminate].
    destruct (User.role user) as [role|] eqn:Hrole; [|discriminate].
    cbn [negb]. unfold ret. intros [= <- <-].
    exists user, role. apply verify_password_true in Hverify. now repeat split.
Qed.




End AccountFacts.

(* ------------------------------------------------------------------ *)
(** ** What a request can reach in the store *)

Section Within.
Variable R : DB -> DB -> Prop.
Hypothesis R_refl : forall db, R db db.
Hypothesis R_trans : forall db1 db2 db3, R db1 db2 -> R db2 db3 -> R db1 db3.

Lemma within_open_session (db : DB) : within R db (open_session db).
Proof. split; apply R_refl. Qed.

Lemma keeps_within_ret (A : Type) (a : A) : keeps_within R (ret a).
Proof. intros db0 s H; exact H. Qed.

Lemma keeps_within_raise (A : Type) (e : Exception) : keeps_within R (raise (A := A) e).
Proof. intros db0 s H; exact H. Qed.

Lemma keeps_within_raise_if (cond : bool) (e : Exception) :
  keeps_within R (raise_if cond e).
Proof. intros db0 s H; unfold raise_if; destruct cond; exact H. Qed.

Lemma keeps_within_query_User_first (p : User.t -> bool) :
  keeps_within R (query_User_first p).
Proof. intros db0 s H; exact H. Qed.

Lemma keeps_within_query_Task_first (p : Task.t -> bool) :
  keeps_within R (query_Task_first p).
Proof. intros db0 s H; exact H. Qed.

Lemma keeps_within_refresh_User (u : User.t) : keeps_within R (refresh_User u).
Proof.
  intros db0 s H. unfold refresh_User.
  destruct (find _ (users (pending s))); exact H.
Qed.

Lemma keeps_within_commit : keeps_within R commit.
Proof.
  intros db0 s [Hs Hp]. unfold commit.
  destruct (constraints_ok (pending s)); split; assumption.
Qed.

Lemma keeps_within_bind (A B : Type) (c : M A) (k : A -> M B) :
  keeps_within R c -> (forall a, keeps_within R (k a)) -> keeps_within R (bind c k).
Proof.
  intros Hc Hk db0 s H. unfold bind. specialize (Hc db0 s H).
  destruct (c s) as [[a|e] s1]; cbn [snd] in *.
  - now apply Hk.
  - exact Hc.
Qed.

(** A step on the session's view alone. *)
Lemma keeps_within_pending (A : Type) (c : M A) :
  (forall s, stored (snd (c s)) = stored s /\ R (pending s) (pending (snd (c s)))) ->
  keeps_within R c.
Proof.
  intros Hc db0 s [Hs Hp]. destruct (Hc s) as [Hst Hstep]. split.
  - now rewrite Hst.
  - now apply R_trans with (pending s).
Qed.

End Within.

Create HintDb within discriminated.
#[export] Hint Resolve keeps_within_ret keeps_within_raise keeps_within_raise_if
  keeps_within_query_User_first keeps_within_query_Task_first
  keeps_within_refresh_User keeps_within_commit keeps_within_bind : within.

Lemma map_cond_id (A : Type) (c : A -> bool) (l : list A) :
  map (fun x => if c x then x else x) l = l.
Proof.
  induction l as [|a l IH]; simpl; [reflexivity|].
  rewrite IH. now destruct (c a).
Qed.

Section EditsUser.
Variable inv : User.t -> User.t -> Prop.
Hypothesis inv_refl : forall u, inv u u.
Hypothesis inv_trans : forall u1 u2 u3, inv u1 u2 -> inv u2 u3 -> inv u1 u3.
Hypothesis inv_id : forall u u', inv u u' -> User.id u' = User.id u.

Lemma edits_User_refl (pk : Z) (db : DB) : edits_User inv pk db db.
Proof.
  exists (fun u => u). split; [exact inv_refl|]. split; [|split; reflexivity].
  symmetry. apply map_cond_id.
Qed.

Lemma edits_User_trans (pk : Z) (db1 db2 db3 : DB) :
  edits_User inv pk db1 db2 -> edits_User inv pk db2 db3 -> edits_User inv pk db1 db3.
Proof.
  intros (g1 & Hg1 & Hu1 & Ht1 & Hc1) (g2 & Hg2 & Hu2 & Ht2 & Hc2).
  exists (fun u => g2 (g1 u)). split; [|split; [|split; congruence]].
  - intros u. apply inv_trans with (g1 u); [apply Hg1 | apply Hg2].
  - rewrite Hu2, Hu1, map_map. apply map_ext. intros u.
    destruct (User.id u == pk) eqn:Hid; [|now rewrite Hid].
    now rewrite (inv_id (Hg1 u)), Hid.
Qed.

Lemma keeps_within_setattr_User (pk : Z) (f : User.t -> User.t) :
  (forall u, inv u (f u)) -> keeps_within (edits_User inv pk) (setattr_User pk f).
Proof.
  intros Hf. apply keeps_within_pending; [exact (edits_User_trans (pk := pk))|].
  intros s. split; [reflexivity|].
  exists f. now repeat split.
Qed.

End EditsUser.

Lemma same_account_refl (u : User.t) : same_account u u.
Proof. now repeat split. Qed.

Lemma same_account_trans (u1 u2 u3 : User.t) :
  same_account u1 u2 -> same_account u2 u3 -> same_account u1 u3.
Proof. unfold same_account. intros (?&?&?&?) (?&?&?&?). repeat split; congruence. Qed.

Lemma same_identity_refl (u : User.t) : same_identity u u.
Proof. now repeat split. Qed.

Lemma same_identity_trans (u1 u2 u3 : User.t) :
  same_identity u1 u2 -> same_identity u2 u3 -> same_identity u1 u3.
Proof. unfold same_identity. intros (?&?&?) (?&?&?). repeat split; congruence. Qed.

Lemma edits_User_others (inv : User.t -> User.t -> Prop) (pk : Z) (db db' : DB) :
  (forall u u', inv u u' -> User.id u' = User.id u) ->
  edits_User inv pk db db' ->
  filter (fun u => User.id u != pk) (users db')
  = filter (fun u => User.id u != pk) (users db).
Proof.
  intros Hid (g & Hg & Hu & _). rewrite Hu. clear Hu.
  induction (users db) as [|a l IH]; simpl; [reflexivity|].
  destruct (User.id a == pk) eqn:Ha.
  - rewrite (Hid _ _ (Hg a)), Ha. exact IH.
  - rewrite Ha. simpl. now rewrite IH.
Qed.

Lemma edits_User_column (A : Type) (inv : User.t -> User.t -> Prop)
    (column : User.t -> A) (pk : Z) (db db' : DB) :
  (forall u u', inv u u' -> column u' = column u) ->
  edits_User inv pk db db' ->
  map column (users db') = map column (users db).
Proof.
  intros Hcol (g & Hg & Hu & _). rewrite Hu, map_map. apply map_ext.
  intros u. destruct (User.id u == pk); [now apply Hcol | reflexivity].
Qed.

Lemma keeps_within_setattr_account (pk : Z) (f : User.t -> User.t) :
  (forall u, same_account u (f u)) ->
  keeps_within (edits_User same_account pk) (setattr_User pk f).
Proof.
  apply keeps_within_setattr_User.
  - exact same_account_trans.
  - now intros u u' [H _].
Qed.

Lemma keeps_within_setattr_identity (pk : Z) (f : User.t -> User.t) :
  (forall u, same_identity u (f u)) ->
  keeps_within (edits_User same_identity pk) (setattr_User pk f).
Proof.
  apply keeps_within_setattr_User.
  - exact same_identity_trans.
  - now intros u u' [H _].
Qed.

Lemma unique_snoc_dup (A : Type) `{EqDec A} (l : list (option A)) (x : A) :
  In (Some x) l -> unique (l ++ [Some x]) = false.
Proof.
  induction l as [|[a|] l IH]; simpl; [tauto| |].
  - intros [Heq|Hin].
    + injection Heq as ->. rewrite existsb_app. simpl. rewrite eqb_refl.
      now rewrite !orb_true_r.
    + rewrite IH by assumption. apply andb_false_r.
  - intros [Heq|Hin]; [discriminate | now apply IH].
Qed.

Section ProfileFacts.
Context {E : Externals}.

(** X7: [register] answers 400 "Email already registered" when a user
    holds the email, and touches nothing; when the email is free but a user
    holds the username, the insert breaks the unique constraint:
    [IntegrityError] is raised and the store keeps its rows. *)
Theorem register_conflicts (now : datetime) (user_data : UserCreate.t) (s : Session) :
  (forall holder,
     In holder (users (pending s)) ->
     User.email holder = Some (UserCreate.email user_data) ->
     register now user_data s
     = (Raise (HTTPException 400 "Email already registered"), s))
  /\ (forall holder,
        (forall u, In u (users (pending s)) ->
                   User.email u <> Some (UserCreate.email user_data)) ->
        In holder (users (pending s)) ->
        User.username holder = Some (UserCreate.username user_data) ->
        fst (register now user_data s) = Raise IntegrityError
        /\ stored (snd (register now user_data s)) = stored s).
Proof.
  split.
  - intros holder Hin Hemail. unfold register, bind, query_User_first.
    destruct (find_exists (fun u => User.email u == Some (UserCreate.email user_data))
                _ holder Hin) as [found Hfound]; [now apply eqb_eq|].
    now rewrite Hfound.
  - intros holder Hfree Hin Hname. unfold register, bind, query_User_first.
    rewrite find_none_all by (intros u Hu; apply eqb_neq; now apply Hfree).
    unfold add_User, commit. cbn [pending stored].
    assert (Hbad : constraints_ok
                     (mkDB (users (pending s) ++
                            [User.mk (next_id (map User.id (users (pending s))))
                                     (Some (UserCreate.email user_data))
                                     (Some (UserCreate.username user_data))
                                     (Some (hash_password (UserCreate.password user_data)))
                                     (Some User_role_default) now])
                           (tasks (pending s)) (comments (pending s))) = false).
    { unfold constraints_ok. cbn [users tasks comments]. rewrite !map_app. cbn [map User.username].
      rewrite (unique_snoc_dup (map User.username (users (pending s)))).
      - now rewrite andb_false_r.
      - rewrite <- Hname. now apply in_map. }
    rewrite Hbad. now split.
Qed.

Lemma keeps_within_update_current_user (user_data : UserUpdate.t) (response : Response)
    (current_user : User.t) :
  keeps_within (edits_User same_account (User.id current_user))
               (update_current_user user_data response current_user).
Proof.
  unfold update_current_user.
  apply keeps_within_bind.
  { destruct (UserUpdate.email user_data) as [new_email|]; auto with within.
    destruct (new_email != User.email current_user); auto with within. }
  intros _. apply keeps_within_bind.
  { destruct (UserUpdate.email user_data) as [new_email|]; auto with within.
    apply keeps_within_setattr_account. now intros u. }
  intros _. apply keeps_within_bind.
  { destruct (UserUpdate.username user_data) as [new_username|]; auto with within.
    apply keeps_within_setattr_account. now intros u. }
  intros _. auto 6 with within.
Qed.

(** X8: a profile update reaches the caller's email and username and
    nothing else. Whatever [PUT /users/me] is sent and however it ends, the
    store afterwards has the same ids, roles, password hashes and creation
    times, the same rows for every other user, and the same tasks and
    comments. *)
Theorem update_current_user_keeps_account
    (user_data : UserUpdate.t) (response : Response) (current_user : User.t) (db : DB) :
  let s' := snd (update_current_user user_data response current_user (open_session db)) in
  map User.id (users (stored s')) = map User.id (users db)
  /\ map User.role (users (stored s')) = map User.role (users db)
  /\ map User.hashed_password (users (stored s')) = map User.hashed_password (users db)
  /\ map User.created_at (users (stored s')) = map User.created_at (users db)
  /\ filter (fun u => User.id u != User.id current_user) (users (stored s'))
     = filter (fun u => User.id u != User.id current_user) (users db)
  /\ tasks (stored s') = tasks db
  /\ comments (stored s') = comments db.
Proof.
  intros s'.
  destruct (@keeps_within_update_current_user user_data response current_user _ _
              (within_open_session (edits_User same_account (User.id current_user))
                 (edits_User_refl same_account same_account_refl (User.id current_user)) db))
    as [Hstored _].
  fold s' in Hstored.
  repeat split.
  - apply (edits_User_column (inv := same_account) User.id (pk := User.id current_user));
      [now intros u u' (?&?&?&?) | exact Hstored].
  - apply (edits_User_column (inv := same_account) User.role (pk := User.id current_user));
      [now intros u u' (?&?&?&?) | exact Hstored].
  - apply (edits_User_column (inv := same_account) User.hashed_password
             (pk := User.id current_user));
      [now intros u u' (?&?&?&?) | exact Hstored].
  - apply (edits_User_column (inv := same_account) User.created_at
             (pk := User.id current_user));
      [now intros u u' (?&?&?&?) | exact Hstored].
  - apply (edits_User_others (inv := same_account));
      [now intros u u' (?&?&?&?) | exact Hstored].
  - now destruct Hstored as (g & _ & _ & Ht & _).
  - now destruct Hstored as (g & _ & _ & _ & Hc).
Qed.

Lemma keeps_within_update_user (user_id : Z) (user_data : SUPERADMINUserUpdate.t)
    (current_user : User.t) :
  keeps_within (edits_User same_identity user_id)
               (update_user user_id user_data current_user).
Proof.
  unfold update_user.
  apply keeps_within_bind; [auto with within | intros _].
  apply keeps_within_bind; [auto with within | intros [user|]]; [|auto with within].
  unfold apply_update_data.
  apply keeps_within_bind.
  { unfold update_email.
    destruct (UpdateData.email _) as [new_email|]; auto with within.
    destruct (new_email != User.email user); auto with within.
    apply keeps_within_bind; [auto with within | intros existing].
    apply keeps_within_bind; [auto with within | intros _].
    apply keeps_within_setattr_identity. now intros u. }
  intros _. apply keeps_within_bind.
  { unfold update_username.
    destruct (UpdateData.username _) as [new_username|]; auto with within.
    apply keeps_within_setattr_identity. now intros u. }
  intros _. apply keeps_within_bind.
  { unfold update_role.
    destruct (UpdateData.role _) as [new_role|]; auto with within.
    apply keeps_within_bind; [auto with within | intros _].
    apply keeps_within_setattr_identity. now intros u. }
  intros _. apply keeps_within_bind.
  { unfold update_password. cbn [model_dump_exclude_unset UpdateData.password].
    auto with within. }
  intros _. auto with within.
Qed.

(** X9: a privileged update reaches the email, username and role of the
    target and nothing else. Whatever [PUT /users/{user_id}] is sent, by
    whom, and however it ends, the store afterwards has the same ids,
    password hashes and creation times, the same rows for every user other
    than the target, and the same tasks and comments. *)
Theorem update_user_reach
    (user_id : Z) (user_data : SUPERADMINUserUpdate.t) (current_user : User.t) (db : DB) :
  let s' := snd (update_user user_id user_data current_user (open_session db)) in
  map User.id (users (stored s')) = map User.id (users db)
  /\ map User.hashed_password (users (stored s')) = map User.hashed_password (users db)
  /\ map User.created_at (users (stored s')) = map User.created_at (users db)
  /\ filter (fun u => User.id u != user_id) (users (stored s'))
     = filter (fun u => User.id u != user_id) (users db)
  /\ tasks (stored s') = tasks db
  /\ comments (stored s') = comments db.
Proof.
  intros s'.
  destruct (@keeps_within_update_user user_id user_data current_user _ _
              (within_open_session (edits_User same_identity user_id)
                 (edits_User_refl same_identity same_identity_refl user_id) db))
    as [Hstored _].
  fold s' in Hstored.
  repeat split.
  - apply (edits_User_column (inv := same_identity) User.id (pk := user_id));
      [now intros u u' (?&?&?) | exact Hstored].
  - apply (edits_User_column (inv := same_identity) User.hashed_password (pk := user_id));
      [now intros u u' (?&?&?) | exact Hstored].
  - apply (edits_User_column (inv := same_identity) User.created_at (pk := user_id));
      [now intros u u' (?&?&?) | exact Hstored].
  - apply (edits_User_others (inv := same_identity));
      [now intros u u' (?&?&?) | exact Hstored].
  - now destruct Hstored as (g & _ & _ & Ht & _).
  - now destruct Hstored as (g & _ & _ & _ & Hc).
Qed.

End ProfileFacts.

(* ------------------------------------------------------------------ *)
(** ** Role gates and lookups *)

Section GateFacts.
Context {E : Externals}.

(** X10: the role is checked before anything is looked up. An actor who is
    not SUPERADMIN gets 403 from the privileged update for every target id,
    stored or not; an actor who is neither ADMIN nor SUPERADMIN gets 403
    from task creation, modification and deletion for every request and
    task id; the session is not touched. *)
Theorem role_gates (current_user : User.t) (s : Session) :
  (User.role current_user <> Some SUPERADMIN ->
   forall user_id user_data,
     update_user user_id user_data current_user s
     = (Raise (HTTPException 403 "Superadmin role required"), s))
  /\ (User.role current_user <> Some ADMIN ->
      User.role current_user <> Some SUPERADMIN ->
      (forall now task_data,
         create_task now task_data current_user s
         = (Raise (HTTPException 403 "Admin role required"), s))
      /\ (forall task_id up_task,
            update_task task_id up_task current_user s
            = (Raise (HTTPException 403 "Admin role required"), s))
      /\ (forall task_id,
            delete_task task_id current_user s
            = (Raise (HTTPException 403 "Admin role required"), s))).
Proof.
  split.
  - intros Hrole user_id user_data. unfold update_user, bind, raise_if.
    apply (proj2 (eqb_neq _ _)) in Hrole. now rewrite Hrole.
  - intros Hadmin Hsuper.
    assert (Hrole : role_not_admin (User.role current_user) = true).
    { unfold role_not_admin. cbn [existsb].
      apply (proj2 (eqb_neq _ _)) in Hadmin. apply (proj2 (eqb_neq _ _)) in Hsuper.
      now rewrite Hadmin, Hsuper. }
    repeat split; intros; unfold create_task, update_task, delete_task, bind, raise_if;
      now rewrite Hrole.
Qed.

End GateFacts.


(* ------------------------------------------------------------------ *)
(** ** Tasks: creation, reading, deletion, modification *)

Lemma constraints_ok_add_Task (db : DB) (t : Task.t) :
  constraints_ok db = true ->
  Task.id t = next_id (map Task.id (tasks db)) ->
  (forall x, Task.title t = Some x -> ~ In (Some x) (map Task.title (tasks db))) ->
  constraints_ok (with_Task_added t db) = true.
Proof.
  unfold constraints_ok, with_Task_added. cbn [users tasks comments].
  intros Hok Hid Htitle.
  apply andb_true_iff in Hok as [Hok Hcid].
  apply andb_true_iff in Hok as [Hok Hti].
  apply andb_true_iff in Hok as [Hok Htid].
  rewrite Hok, Hcid. cbn [andb]. rewrite andb_true_r, !map_app. cbn [map].
  apply andb_true_iff. split.
  - rewrite Hid. now apply primary_key_snoc.
  - destruct (Task.title t) as [x|] eqn:Hx.
    + apply unique_snoc; [assumption | now apply Htitle].
    + now rewrite unique_snoc_None.
Qed.

Lemma constraints_bad_title (db : DB) (t : Task.t) (x : string) :
  Task.title t = Some x ->
  In (Some x) (map Task.title (tasks db)) ->
  constraints_ok (with_Task_added t db) = false.
Proof.
  intros Hx Hin. unfold constraints_ok, with_Task_added. cbn [users tasks comments].
  rewrite !map_app. cbn [map]. rewrite Hx.
  rewrite (unique_snoc_dup (map Task.title (tasks db))) by assumption.
  now rewrite andb_false_r.
Qed.


(** The run of [create_task] once the role and the assignee have passed. *)
Lemma create_task_run (now : datetime) (task_data : TaskCreate.t)
    (current_user assignee : User.t) (a : Z) (s : Session) :
  User.role current_user = Some ADMIN \/ User.role current_user = Some SUPERADMIN ->
  TaskCreate.assignee_id task_data = Some a ->
  In assignee (users (pending s)) ->
  User.id assignee = a ->
  let task := created_Task now task_data current_user a (pending s) in
  create_task now task_data current_user s
  = if constraints_ok (with_Task_added task (pending s))
    then (Return (TaskResponse.mk (TaskCreate.title task_data)
                    (TaskCreate.description task_data) (TaskCreate.status task_data)
                    MEDIUM (TaskCreate.deadline task_data) now
                    (User.id current_user) (Some a)),
          open_session (with_Task_added task (pending s)))
    else (Raise IntegrityError,
          mkSession (stored s) (with_Task_added task (pending s))).
Proof.
  intros Hrole Hassignee Hin Hid task.
  assert (Hadmin : role_not_admin (User.role current_user) = false)
    by (destruct Hrole as [-> | ->]; reflexivity).
  unfold create_task, bind, raise_if. rewrite Hadmin.
  unfold ret, query_User_first. rewrite Hassignee.
  destruct (find_exists (fun u => Some (User.id u) == Some a) _ assignee Hin)
    as [found Hfound]; [apply eqb_eq; now rewrite Hid|].
  rewrite Hfound. unfold add_Task, commit. cbn [pending stored].
  fold (created_Task now task_data current_user a (pending s)).
  rewrite <- Hassignee.
  change (Task.mk _ _ _ _ _ _ _ _ (TaskCreate.assignee_id task_data))
    with (Task.mk (next_id (map Task.id (tasks (pending s))))
                  (Some (TaskCreate.title task_data)) (TaskCreate.description task_data)
                  (Some (TaskCreate.status task_data)) (Some (TaskCreate.priority task_data))
                  (TaskCreate.deadline task_data) now (Some (User.id current_user))
                  (TaskCreate.assignee_id task_data)).
  rewrite Hassignee.
  fold (created_Task now task_data current_user a (pending s)). fold task.
  fold (with_Task_added task (pending s)).
  destruct (constraints_ok (with_Task_added task (pending s))); reflexivity.
Qed.

(** X12: an ADMIN or SUPERADMIN who names a stored user as assignee and a
    title no task has gets the task stored with the requested fields, the
    actor as author and the time of the call; the answer repeats them,
    except that its priority is always [MEDIUM], whatever was requested and
    stored. With a title some task already has, the insert breaks the unique
    constraint: [IntegrityError] is raised and the store keeps its rows. *)
Theorem create_task_outcomes
    (now : datetime) (task_data : TaskCreate.t) (current_user assignee : User.t)
    (a : Z) (db : DB) :
  constraints_ok db = true ->
  User.role current_user = Some ADMIN \/ User.role current_user = Some SUPERADMIN ->
  TaskCreate.assignee_id task_data = Some a ->
  In assignee (users db) ->
  User.id assignee = a ->
  let task := created_Task now task_data current_user a db in
  ((forall t, In t (tasks db) -> Task.title t <> Some (TaskCreate.title task_data)) ->
   create_task now task_data current_user (open_session db)
   = (Return (TaskResponse.mk (TaskCreate.title task_data)
                (TaskCreate.description task_data) (TaskCreate.status task_data)
                MEDIUM (TaskCreate.deadline task_data) now
                (User.id current_user) (Some a)),
      open_session (with_Task_added task db))
   /\ Task.priority task = Some (TaskCreate.priority task_data))
  /\ (forall holder,
        In holder (tasks db) ->
        Task.title holder = Some (TaskCreate.title task_data) ->
        create_task now task_data current_user (open_session db)
        = (Raise IntegrityError, mkSession db (with_Task_added task db))).
Proof.
  intros Hok Hrole Hassignee Hin Hid task.
  pose proof (create_task_run now task_data current_user assignee (open_session db)
                Hrole Hassignee Hin Hid) as Hrun.
  cbv zeta in Hrun. cbn [open_session pending stored] in Hrun. fold task in Hrun.
  split.
  - intros Hfree. split; [|reflexivity].
    rewrite Hrun, constraints_ok_add_Task; try assumption; try reflexivity.
    intros x Hx Hinx. apply in_map_iff in Hinx as (t & Ht & Hint).
    apply (Hfree t Hint). rewrite Ht. cbn in Hx. congruence.
  - intros holder Hholder Htitle.
    rewrite Hrun, (constraints_bad_title db task (x := TaskCreate.title task_data)).
    + reflexivity.
    + reflexivity.
    + rewrite <- Htitle. now apply in_map.
Qed.


Lemma find_after_delete (pk : Z) (l : list Task.t) :
  find (fun t => Task.id t == pk) (filter (fun t => Task.id t != pk) l) = None.
Proof.
  apply find_none_all. intros t Hin. apply filter_In in Hin as [_ Hne].
  now apply negb_true_iff in Hne.
Qed.

(** The runs of [delete_task] and [update_task] for an actor the policy
    lets through. *)
Lemma delete_task_run (task_id : Z) (current_user : User.t) (db : DB) (task : Task.t) :
  constraints_ok db = true ->
  find (fun t => Task.id t == task_id) (tasks db) = Some task ->
  User.role current_user = Some SUPERADMIN
  \/ (User.role current_user = Some ADMIN
      /\ Task.author_id task = Some (User.id current_user)) ->
  delete_task task_id current_user (open_session db)
  = (Return "Task is deleted successfully", open_session (without_Task task_id db)).
Proof.
  intros Hok Hfind Hallowed.
  assert (Hid : Task.id task = task_id)
    by (apply find_some in Hfind as [_ Hp]; now apply eqb_eq in Hp).
  assert (Hrole : role_not_admin (User.role current_user) = false)
    by (destruct Hallowed as [-> | [-> _]]; reflexivity).
  assert (Hdenied : (User.role current_user == Some ADMIN)
                    && (Task.author_id task != Some (User.id current_user)) = false).
  { destruct Hallowed as [-> | [-> ->]]; [reflexivity|]. now rewrite !eqb_refl. }
  unfold delete_task, bind, raise_if. rewrite Hrole.
  unfold ret, query_Task_first. cbn [open_session pending]. rewrite Hfind, Hdenied.
  unfold delete_Task, commit. cbn [open_session pending stored]. rewrite Hid.
  fold (without_Task task_id db). now rewrite constraints_ok_without_Task.
Qed.



(** X14: a deleted task is gone and nothing else is. After a deletion the
    policy lets through, reading, modifying or deleting the same id answers
    404, while every other task, every user and every comment, those on the
    deleted task included, is still stored. *)
Theorem delete_task_then_missing
    (task_id : Z) (current_user reader : User.t) (db : DB) (task : Task.t) :
  constraints_ok db = true ->
  find (fun t => Task.id t == task_id) (tasks db) = Some task ->
  User.role current_user = Some SUPERADMIN
  \/ (User.role current_user = Some ADMIN
      /\ Task.author_id task = Some (User.id current_user)) ->
  exists s1,
    delete_task task_id current_user (open_session db)
      = (Return "Task is deleted successfully", s1)
    /\ get_task_detail task_id reader s1
       = (Raise (HTTPException 404 "Task doesn't exists"), s1)
    /\ (forall up_task,
          update_task task_id up_task current_user s1
          = (Raise (HTTPException 404 "Task not found"), s1))
    /\ delete_task task_id current_user s1
       = (Raise (HTTPException 404 "Task doesn't exists"), s1)
    /\ (forall t, In t (tasks db) -> Task.id t <> task_id -> In t (tasks (stored s1)))
    /\ users (stored s1) = users db
    /\ comments (stored s1) = comments db.
Proof.
  intros Hok Hfind Hallowed.
  exists (open_session (without_Task task_id db)).
  split; [now apply delete_task_run with task|].
  assert (Hrole : role_not_admin (User.role current_user) = false)
    by (destruct Hallowed as [-> | [-> _]]; reflexivity).
  assert (Hgone : find (fun t => Task.id t == task_id)
                       (tasks (pending (open_session (without_Task task_id db)))) = None)
    by apply find_after_delete.
  repeat split.
  - unfold get_task_detail, bind, query_Task_first. now rewrite Hgone.
  - intros up_task. unfold update_task, bind, raise_if. rewrite Hrole.
    unfold ret, query_Task_first. now rewrite Hgone.
  - unfold delete_task, bind, raise_if. rewrite Hrole.
    unfold ret, query_Task_first. now rewrite Hgone.
  - intros t Hin Hne. cbn [open_session stored without_Task tasks].
    apply filter_In. split; [assumption|]. now apply negb_true_iff, eqb_neq.
Qed.






Lemma with_Task_updated_frame (pk : Z) (up_task : TaskUpdate.t) (db : DB) :
  map Task.id (tasks (with_Task_updated pk up_task db)) = map Task.id (tasks db)
  /\ map Task.author_id (tasks (with_Task_updated pk up_task db))
     = map Task.author_id (tasks db)
  /\ map Task.created_at (tasks (with_Task_updated pk up_task db))
     = map Task.created_at (tasks db)
  /\ filter (fun t => Task.id t != pk) (tasks (with_Task_updated pk up_task db))
     = filter (fun t => Task.id t != pk) (tasks db).
Proof.
  unfold with_Task_updated. cbn [tasks]. rewrite !map_map. repeat split.
  - apply map_ext. intros t. now destruct (Task.id t == pk).
  - apply map_ext. intros t. now destruct (Task.id t == pk).
  - apply map_ext. intros t. now destruct (Task.id t == pk).
  - induction (tasks db) as [|t l IH]; simpl; [reflexivity|].
    destruct (Task.id t == pk) eqn:Ht.
    + cbn [setattrs Task.id]. rewrite Ht. exact IH.
    + rewrite Ht. simpl. now rewrite IH.
Qed.

(** X17: a task modification reaches the editable fields of the one task
    and nothing else. Whatever [PUT /tasks/{task_id}] is sent, by whom, and
    however it ends, the store afterwards has the same task ids, authors and
    creation times, the same rows for every other task, and the same users
    and comments. *)
Theorem update_task_reach
    (task_id : Z) (up_task : TaskUpdate.t) (current_user : User.t) (db : DB) :
  let s' := snd (update_task task_id up_task current_user (open_session db)) in
  map Task.id (tasks (stored s')) = map Task.id (tasks db)
  /\ map Task.author_id (tasks (stored s')) = map Task.author_id (tasks db)
  /\ map Task.created_at (tasks (stored s')) = map Task.created_at (tasks db)
  /\ filter (fun t => Task.id t != task_id) (tasks (stored s'))
     = filter (fun t => Task.id t != task_id) (tasks db)
  /\ users (stored s') = users db
  /\ comments (stored s') = comments db.
Proof.
  intros s'. subst s'. unfold update_task, bind, raise_if.
  destruct (role_not_admin (User.role current_user)); [now repeat split|].
  unfold ret, query_Task_first. cbn [open_session pending].
  destruct (find _ (tasks db)) as [task|] eqn:Hfind; [|now repeat split].
  assert (Hid : Task.id task = task_id)
    by (apply find_some in Hfind as [_ Hp]; now apply eqb_eq in Hp).
  destruct (_ && _); [now repeat split|].
  unfold setattr_Task, commit. cbn [open_session pending stored]. rewrite Hid.
  fold (with_Task_updated task_id up_task db).
  destruct (constraints_ok (with_Task_updated task_id up_task db));
    cbn [fst snd stored]; [|now repeat split].
  destruct (with_Task_updated_frame task_id up_task db) as (H1 & H2 & H3 & H4).
  now repeat split.
Qed.

(* ------------------------------------------------------------------ *)
(** ** Emails and usernames under update *)

Lemma existsb_eqb_false_inv (A : Type) `{EqDec A} (x : option A) (l : list (option A)) :
  existsb (fun y => y == x) l = false -> ~ In x l.
Proof.
  induction l as [|a l IH]; simpl; [tauto|].
  intros Hex. apply orb_false_iff in Hex as [Ha Hl].
  intros [->|Hin]; [now rewrite eqb_refl in Ha | now apply IH].
Qed.

Lemma primary_key_cons (a : Z) (ids : list Z) :
  primary_key (a :: ids) = true -> ~ In a ids /\ primary_key ids = true.
Proof.
  unfold primary_key. simpl. intros Hu. apply andb_true_iff in Hu as [Ha Hu].
  split; [|exact Hu]. apply negb_true_iff, existsb_eqb_false_inv in Ha.
  intros Hin. apply Ha. now apply in_map.
Qed.

Lemma map_cond_absent (pk : Z) (f : User.t -> User.t) (l : list User.t) :
  ~ In pk (map User.id l) ->
  map (fun u => if User.id u == pk then f u else u) l = l.
Proof.
  induction l as [|a l IH]; simpl; [reflexivity|].
  intros Hn. rewrite IH by tauto.
  destruct (User.id a == pk) eqn:Ha; [|reflexivity].
  apply eqb_eq in Ha. tauto.
Qed.

Lemma unique_column_replace (B : Type) `{EqDec B} (col : User.t -> option B)
    (pk : Z) (f : User.t -> User.t) (v : option B) (l : list User.t) :
  (forall u, col (f u) = v) ->
  primary_key (map User.id l) = true ->
  unique (map col l) = true ->
  (forall x, v = Some x -> ~ In (Some x) (map col l)) ->
  unique (map col (map (fun u => if User.id u == pk then f u else u) l)) = true.
Proof.
  intros Hf. induction l as [|a l IH]; [reflexivity|].
  cbn [map]. intros Hpk Hu Hfresh.
  apply primary_key_cons in Hpk as [Hnotin Hpk].
  assert (Htl : unique (map col l) = true).
  { cbn [unique] in Hu. destruct (col a); [now apply andb_true_iff in Hu as [_ Hu] | exact Hu]. }
  assert (Hfresh' : forall x, v = Some x -> ~ In (Some x) (map col l))
    by (intros x Hx Hin; apply (Hfresh x Hx); now right).
  destruct (User.id a == pk) eqn:Ha.
  - apply eqb_eq in Ha. subst pk.
    rewrite map_cond_absent by assumption. rewrite Hf.
    destruct v as [x|]; cbn [unique]; [|exact Htl].
    apply andb_true_iff. split; [|exact Htl].
    apply negb_true_iff, existsb_eqb_false. now apply Hfresh'.
  - specialize (IH Hpk Htl Hfresh').
    destruct (col a) as [y|] eqn:Hy; cbn [unique]; [|exact IH].
    apply andb_true_iff. split; [|exact IH].
    apply negb_true_iff, existsb_eqb_false.
    intros Hin. rewrite map_map in Hin. apply in_map_iff in Hin as (u & Hcol & Hin).
    destruct (User.id u == pk).
    + rewrite Hf in Hcol. apply (Hfresh y Hcol). now left.
    + cbn [unique] in Hu. apply andb_true_iff in Hu as [Hhead _].
      apply negb_true_iff, existsb_eqb_false_inv in Hhead. apply Hhead.
      rewrite <- Hcol. now apply in_map.
Qed.

Lemma constraints_ok_new_email (pk : Z) (e : option string) (db : DB) :
  constraints_ok db = true ->
  (forall x, e = Some x -> ~ In (Some x) (map User.email (users db))) ->
  constraints_ok (with_User_updated pk (set_email e) db) = true.
Proof.
  unfold constraints_ok, with_User_updated. cbn [users tasks comments].
  intros Hok Hfresh.
  apply andb_true_iff in Hok as [Hok Hcid].
  apply andb_true_iff in Hok as [Hok Hti].
  apply andb_true_iff in Hok as [Hok Htid].
  apply andb_true_iff in Hok as [Hok Hname].
  apply andb_true_iff in Hok as [Hid Hemail].
  rewrite Hcid, Hti, Htid, !andb_true_r.
  apply andb_true_iff. split; [apply andb_true_iff; split|].
  - rewrite map_map.
    rewrite (map_ext (fun u => User.id (if User.id u == pk then set_email e u else u))
                     User.id); [assumption|].
    intros u. now destruct (User.id u == pk).
  - now apply unique_column_replace with (v := e).
  - rewrite map_map.
    rewrite (map_ext (fun u => User.username (if User.id u == pk then set_email e u else u))
                     User.username); [assumption|].
    intros u. now destruct (User.id u == pk).
Qed.

Lemma constraints_ok_new_username (pk : Z) (n : option string) (db : DB) :
  constraints_ok db = true ->
  (forall x, n = Some x -> ~ In (Some x) (map User.username (users db))) ->
  constraints_ok (with_User_updated pk (set_username n) db) = true.
Proof.
  unfold constraints_ok, with_User_updated. cbn [users tasks comments].
  intros Hok Hfresh.
  apply andb_true_iff in Hok as [Hok Hcid].
  apply andb_true_iff in Hok as [Hok Hti].
  apply andb_true_iff in Hok as [Hok Htid].
  apply andb_true_iff in Hok as [Hok Hname].
  apply andb_true_iff in Hok as [Hid Hemail].
  rewrite Hcid, Hti, Htid, !andb_true_r.
  apply andb_true_iff. split; [apply andb_true_iff; split|].
  - rewrite map_map.
    rewrite (map_ext (fun u => User.id (if User.id u == pk then set_username n u else u))
                     User.id); [assumption|].
    intros u. now destruct (User.id u == pk).
  - rewrite map_map.
    rewrite (map_ext (fun u => User.email (if User.id u == pk then set_username n u else u))
                     User.email); [assumption|].
    intros u. now destruct (User.id u == pk).
  - now apply unique_column_replace with (v := n).
Qed.

Section EmailFacts.
Context {E : Externals}.

(** X18: the email rule of the privileged update. For a SUPERADMIN and a
    stored target: a new email whose holder is another user is refused with
    400 "Email already registered" and nothing is touched; an email nobody
    holds is stored on the target and the updated user returned; the
    target's own current email is accepted and changes nothing. *)
Theorem update_user_email_rule
    (user_id : Z) (e : string) (current_user user : User.t) (db : DB) :
  constraints_ok db = true ->
  User.role current_user = Some SUPERADMIN ->
  stored_User user_id db = Some user ->
  (forall other username role,
     User.email user <> Some e ->
     find (fun u => User.email u == Some e) (users db) = Some other ->
     User.id other <> user_id ->
     update_user user_id (SUPERADMINUserUpdate.mk (Some (Some e)) username role)
                 current_user (open_session db)
     = (Raise (HTTPException 400 "Email already registered"), open_session db))
  /\ ((forall u, In u (users db) -> User.email u <> Some e) ->
      update_user user_id (email_only e) current_user (open_session db)
      = (Return (set_email (Some e) user),
         open_session (with_User_updated user_id (set_email (Some e)) db)))
  /\ (User.email user = Some e ->
      update_user user_id (email_only e) current_user (open_session db)
      = (Return user, open_session db)).
Proof.
  intros Hok Hactor Hfound.
  assert (Hid : User.id user = user_id).
  { unfold stored_User in Hfound. apply find_some in Hfound as [_ Hp].
    now apply eqb_eq in Hp. }
  assert (Hin : In user (users db)).
  { unfold stored_User in Hfound. now apply find_some in Hfound as [Hin _]. }
  assert (Hhead : forall user_data,
            update_user user_id user_data current_user (open_session db)
            = apply_update_data user_id current_user user
                (User.id current_user == user_id)
                (model_dump_exclude_unset user_data) (open_session db)).
  { intros user_data. unfold update_user, bind, raise_if.
    rewrite Hactor, eqb_refl. cbn [negb]. unfold ret, query_User_first.
    cbn [open_session pending]. unfold stored_User in Hfound. now rewrite Hfound. }
  split; [|split].
  - intros other username role Hdiff Hother Hne. rewrite Hhead.
    unfold apply_update_data, bind, update_email.
    cbn [model_dump_exclude_unset UpdateData.email SUPERADMINUserUpdate.email].
    assert (Hneq : (Some e != User.email user) = true)
      by (apply negb_true_iff, eqb_neq; congruence).
    rewrite Hneq. unfold bind, query_User_first, raise_if.
    cbn [open_session pending]. rewrite Hother.
    assert (Hne' : (User.id other != user_id) = true)
      by (now apply negb_true_iff, eqb_neq).
    now rewrite Hne'.
  - intros Hfree. rewrite Hhead.
    unfold apply_update_data, bind, update_email, email_only.
    cbn [model_dump_exclude_unset UpdateData.email SUPERADMINUserUpdate.email].
    assert (Hneq : (Some e != User.email user) = true).
    { apply negb_true_iff, eqb_neq. intros Heq. now apply (Hfree user Hin). }
    rewrite Hneq. unfold bind, query_User_first, raise_if.
    cbn [open_session pending].
    rewrite find_none_all by (intros u Hu; apply eqb_neq; now apply Hfree).
    unfold ret, setattr_User, update_username, update_role, update_password, commit.
    cbn [pending stored open_session model_dump_exclude_unset UpdateData.username
         UpdateData.role UpdateData.password SUPERADMINUserUpdate.username
         SUPERADMINUserUpdate.role].
    unfold ret. cbv beta iota.
    fold (with_User_updated user_id (set_email (Some e)) db). cbn [pending].
    rewrite constraints_ok_new_email; [|assumption|].
    2:{ intros x [= <-] Hinx. apply in_map_iff in Hinx as (u & Hu & Hinu).
        now apply (Hfree u Hinu). }
    unfold refresh_User. cbn [pending with_User_updated users]. rewrite Hid.
    rewrite find_map_by_id by reflexivity.
    unfold stored_User in Hfound. now rewrite Hfound.
  - intros Hsame. rewrite Hhead.
    unfold apply_update_data, bind, update_email, email_only.
    cbn [model_dump_exclude_unset UpdateData.email SUPERADMINUserUpdate.email].
    rewrite Hsame, eqb_refl. cbn [negb].
    unfold ret, update_username, update_role, update_password, commit.
    cbn [pending stored open_session model_dump_exclude_unset UpdateData.username
         UpdateData.role UpdateData.password SUPERADMINUserUpdate.username
         SUPERADMINUserUpdate.role].
    unfold ret. cbv beta iota. cbn [open_session pending]. rewrite Hok.
    unfold refresh_User. cbn [pending]. rewrite Hid.
    unfold stored_User in Hfound. now rewrite Hfound.
Qed.

End EmailFacts.

Section SelfUpdateFacts.
Context {E : Externals}.

(** X19: the profile update. Whenever [PUT /users/me] succeeds, its
    response clears the [access_token] cookie. A new email (or an explicit
    null) that differs from the caller's and that some user holds is refused
    with 400 "Email already registered" and nothing is touched. A username
    nobody holds is stored on the caller's row, which is returned. *)
Theorem update_current_user_outcomes
    (user_data : UserUpdate.t) (response : Response) (current_user : User.t) (db : DB) :
  (forall answer s',
     update_current_user user_data response current_user (open_session db)
       = (Return answer, s') ->
     snd answer = delete_cookie response "access_token")
  /\ (forall new_email holder,
        UserUpdate.email user_data = Some new_email ->
        new_email <> User.email current_user ->
        In holder (users db) ->
        User.email holder = new_email ->
        update_current_user user_data response current_user (open_session db)
        = (Raise (HTTPException 400 "Email already registered"), open_session db))
  /\ (forall n,
        constraints_ok db = true ->
        stored_User (User.id current_user) db = Some current_user ->
        (forall u, In u (users db) -> User.username u <> Some n) ->
        update_current_user (username_only n) response current_user (open_session db)
        = (Return (set_username (Some n) current_user,
                   delete_cookie response "access_token"),
           open_session
             (with_User_updated (User.id current_user) (set_username (Some n)) db))).
Proof.
  split; [|split].
  - intros answer s'. unfold update_current_user, bind.
    repeat match goal with
           | |- context [let (_, _) := ?c in _] =>
               destruct c as [[?|?] ?]; [|discriminate]
           end.
    unfold ret. now intros [= <- _].
  - intros new_email holder Hset Hdiff Hin Hheld.
    unfold update_current_user, bind. rewrite Hset.
    assert (Hneq : (new_email != User.email current_user) = true)
      by (now apply negb_true_iff, eqb_neq).
    rewrite Hneq. unfold bind, query_User_first, raise_if. cbn [open_session pending].
    destruct (find_exists (fun u => User.email u == new_email) _ holder Hin)
      as [found Hfound]; [now apply eqb_eq|].
    now rewrite Hfound.
  - intros n Hok Hrow Hfree.
    unfold update_current_user, bind, username_only.
    cbn [UserUpdate.email UserUpdate.username].
    unfold ret, setattr_User, commit. cbn [open_session pending stored].
    fold (with_User_updated (User.id current_user) (set_username (Some n)) db).
    rewrite constraints_ok_new_username; [|assumption|].
    2:{ intros x [= <-] Hinx. apply in_map_iff in Hinx as (u & Hu & Hinu).
        now apply (Hfree u Hinu). }
    unfold refresh_User. cbn [pending with_User_updated users].
    rewrite find_map_by_id by reflexivity.
    unfold stored_User in Hrow. now rewrite Hrow.
Qed.

End SelfUpdateFacts.

(* ------------------------------------------------------------------ *)
(** ** The constraints of the store *)

Lemma keeps_constraints_of_keeps_store (A : Type) (c : M A) :
  keeps_store c -> keeps_constraints c.
Proof. intros Hc s Hok. now rewrite Hc. Qed.

Lemma keeps_constraints_commit : keeps_constraints commit.
Proof.
  intros s Hok. unfold commit.
  destruct (constraints_ok (pending s)) eqn:Hp; cbn [snd stored]; assumption.
Qed.

Lemma keeps_constraints_bind (A B : Type) (c : M A) (k : A -> M B) :
  keeps_constraints c -> (forall a, keeps_constraints (k a)) ->
  keeps_constraints (bind c k).
Proof.
  intros Hc Hk s Hok. unfold bind. specialize (Hc s Hok).
  destruct (c s) as [[a|e] s1]; cbn [snd] in *.
  - now apply Hk.
  - exact Hc.
Qed.

Lemma keeps_store_setattr_Task (pk : Z) (f : Task.t -> Task.t) :
  keeps_store (setattr_Task pk f).
Proof. intros s; reflexivity. Qed.

Lemma keeps_store_delete_Task (pk : Z) : keeps_store (delete_Task pk).
Proof. intros s; reflexivity. Qed.

Lemma keeps_store_add_User (new : Z -> User.t) : keeps_store (add_User new).
Proof. intros s; reflexivity. Qed.

Lemma keeps_store_add_Task (new : Z -> Task.t) : keeps_store (add_Task new).
Proof. intros s; reflexivity. Qed.

Lemma keeps_store_add_Comment (new : Z -> Comment.t) : keeps_store (add_Comment new).
Proof. intros s; reflexivity. Qed.

Lemma keeps_store_refresh_User (u : User.t) : keeps_store (refresh_User u).
Proof.
  intros s. unfold refresh_User. now destruct (find _ (users (pending s))).
Qed.

Create HintDb constraints discriminated.
#[export] Hint Resolve keeps_constraints_commit keeps_constraints_bind : constraints.
#[export] Hint Extern 1 (keeps_constraints _) =>
  (apply keeps_constraints_of_keeps_store;
   solve [auto using keeps_store_ret, keeps_store_raise, keeps_store_raise_if,
            keeps_store_query_User_first, keeps_store_query_Task_first,
            keeps_store_setattr_User, keeps_store_setattr_Task, keeps_store_delete_Task,
            keeps_store_add_User, keeps_store_add_Task, keeps_store_add_Comment,
            keeps_store_refresh_User]) : constraints.

Section ConstraintFacts.
Context {E : Externals}.

(** The handlers that write keep the store consistent. If the
    committed store has unique ids, emails, usernames and task titles
    before [register], [update_current_user], [update_user], [create_task],
    [update_task], [delete_task] or [comment_to_task] is called, it has
    them afterwards, whatever the request and however the call ends. *)
Theorem handlers_keep_constraints :
  (forall now user_data, keeps_constraints (register now user_data))
  /\ (forall user_data response current_user,
        keeps_constraints (update_current_user user_data response current_user))
  /\ (forall user_id user_data current_user,
        keeps_constraints (update_user user_id user_data current_user))
  /\ (forall now task_data current_user,
        keeps_constraints (create_task now task_data current_user))
  /\ (forall task_id up_task current_user,
        keeps_constraints (update_task task_id up_task current_user))
  /\ (forall task_id current_user, keeps_constraints (delete_task task_id current_user))
  /\ (forall now response_now task_id comment current_user,
        keeps_constraints (comment_to_task now response_now task_id comment current_user)).
Proof.
  repeat split; intros.
  - unfold register.
    apply keeps_constraints_bind; [auto with constraints | intros [u|]];
      auto 8 with constraints.
  - unfold update_current_user.
    apply keeps_constraints_bind.
    { destruct (UserUpdate.email user_data) as [new_email|]; auto with constraints.
      destruct (new_email != User.email current_user); auto 6 with constraints. }
    intros _. apply keeps_constraints_bind.
    { destruct (UserUpdate.email user_data); auto with constraints. }
    intros _. apply keeps_constraints_bind.
    { destruct (UserUpdate.username user_data); auto with constraints. }
    intros _. auto 8 with constraints.
  - unfold update_user.
    apply keeps_constraints_bind; [auto with constraints | intros _].
    apply keeps_constraints_bind; [auto with constraints | intros [user|]];
      [|auto with constraints].
    unfold apply_update_data.
    apply keeps_constraints_bind;
      [apply keeps_constraints_of_keeps_store, keeps_store_update_email | intros _].
    apply keeps_constraints_bind;
      [apply keeps_constraints_of_keeps_store, keeps_store_update_username | intros _].
    apply keeps_constraints_bind;
      [apply keeps_constraints_of_keeps_store, keeps_store_update_role | intros _].
    apply keeps_constraints_bind;
      [apply keeps_constraints_of_keeps_store, keeps_store_update_password | intros _].
    auto 6 with constraints.
  - unfold create_task.
    apply keeps_constraints_bind; [auto with constraints | intros _].
    apply keeps_constraints_bind; [auto with constraints | intros [u|]];
      auto 8 with constraints.
  - unfold update_task.
    apply keeps_constraints_bind; [auto with constraints | intros _].
    apply keeps_constraints_bind; [auto with constraints | intros [t|]];
      auto 8 with constraints.
  - unfold delete_task.
    apply keeps_constraints_bind; [auto with constraints | intros _].
    apply keeps_constraints_bind; [auto with constraints | intros [t|]];
      auto 8 with constraints.
  - unfold comment_to_task.
    apply keeps_constraints_bind; [auto with constraints | intros _].
    apply keeps_constraints_bind; [auto with constraints | intros _].
    destruct (User.username current_user); auto with constraints.
Qed.

End ConstraintFacts.

(* ------------------------------------------------------------------ *)
(** ** Tokens and roles across updates *)

Lemma find_map_invariant (p : User.t -> bool) (pk : Z) (f : User.t -> User.t)
    (l : list User.t) :
  (forall u, p (f u) = p u) ->
  find p (map (fun u => if User.id u == pk then f u else u) l)
  = option_map (fun u => if User.id u == pk then f u else u) (find p l).
Proof.
  intros Hp. induction l as [|a l IH]; simpl; [reflexivity|].
  assert (Ha : p (if User.id a == pk then f a else a) = p a)
    by (destruct (User.id a == pk); [apply Hp | reflexivity]).
  rewrite Ha. destruct (p a); [reflexivity | exact IH].
Qed.

Section UpdateRuns.
Context {E : Externals}.

(** The run of a privileged update that sets the role alone on another
    user. *)
Lemma update_user_role_run (user_id : Z) (new_role : option UserRole)
    (current_user user : User.t) (db : DB) :
  constraints_ok db = true ->
  User.role current_user = Some SUPERADMIN ->
  stored_User user_id db = Some user ->
  user_id <> User.id current_user ->
  update_user user_id (role_field_only new_role) current_user (open_session db)
  = (Return (set_role new_role user),
     open_session (with_User_updated user_id (set_role new_role) db)).
Proof.
  intros Hok Hactor Hfound Hother.
  assert (Hid : User.id user = user_id).
  { unfold stored_User in Hfound. apply find_some in Hfound as [_ Hp].
    now apply eqb_eq in Hp. }
  assert (Hself : (User.id current_user == user_id) = false)
    by (apply eqb_neq; congruence).
  unfold update_user, bind, raise_if. rewrite Hactor, eqb_refl. cbn [negb].
  unfold ret, query_User_first. cbn [open_session pending].
  unfold stored_User in Hfound. rewrite Hfound, Hself.
  unfold apply_update_data, bind, update_email, update_username, update_role,
         update_password, role_field_only.
  cbn [model_dump_exclude_unset UpdateData.email UpdateData.username UpdateData.role
       UpdateData.password SUPERADMINUserUpdate.email SUPERADMINUserUpdate.username
       SUPERADMINUserUpdate.role].
  unfold ret, bind, raise_if, ret, setattr_User, commit. cbv beta iota.
  cbn [open_session pending stored].
  rewrite constraints_ok_set_role, Hok.
  fold (with_User_updated user_id (set_role new_role) db).
  unfold refresh_User. cbn [pending with_User_updated users]. rewrite Hid.
  rewrite find_map_by_id by reflexivity. now rewrite Hfound.
Qed.


(** X20: a role set to [null] locks the user out of login. A SUPERADMIN's
    update that sets another stored user's role to an explicit null
    succeeds; from then on a login of that user with the right password
    raises (no role to put in the token) instead of answering. *)
Theorem null_role_breaks_login
    (user_id : Z) (current_user user : User.t) (db : DB)
    (clock : Clock.t) (login_data : LoginRequest.t) (response : Response) :
  constraints_ok db = true ->
  User.role current_user = Some SUPERADMIN ->
  stored_User user_id db = Some user ->
  user_id <> User.id current_user ->
  find (fun u => User.email u == Some (LoginRequest.email login_data)) (users db)
    = Some user ->
  User.hashed_password user = Some (sha256_hexdigest (LoginRequest.password login_data)) ->
  exists s1,
    update_user user_id (role_field_only None) current_user (open_session db)
      = (Return (set_role None user), s1)
    /\ login clock login_data response s1 = (Raise AttributeError, s1).
Proof.
  intros Hok Hactor Hfound Hother Hemail Hhash.
  eexists. split; [now apply update_user_role_run|].
  assert (Hid : (User.id user == user_id) = true).
  { unfold stored_User in Hfound. now apply find_some in Hfound as [_ Hp]. }
  unfold login, bind, query_User_first. cbn [open_session pending with_User_updated users].
  rewrite find_map_invariant by reflexivity. rewrite Hemail. cbn [option_map].
  rewrite Hid. cbn [set_role User.hashed_password User.role].
  apply verify_password_true in Hhash. now rewrite Hhash.
Qed.


End UpdateRuns.

(* ------------------------------------------------------------------ *)
(** ** The further properties on the sample data *)

Ltac each_row :=
  simpl;
  let H := fresh "H" in
  intros ? H;
  repeat (destruct H as [<-|H]; [simpl; try discriminate; try reflexivity|]);
  try destruct H.




Lemma login_success_witness :
  login (E := example_externals) (Clock.mk 10 10) (LoginRequest.mk "alice@x.com" "pw1") []
        (open_session people)
  = (Return (Token.mk (create_token (E := example_externals) (Clock.mk 10 10) 1 USER),
             [Cookie.mk "access_token"
                        (create_token (E := example_externals) (Clock.mk 10 10) 1 USER)
                        true]),
     open_session people).
Proof.
  apply (proj1 (@login_success example_externals (Clock.mk 10 10)
                  (LoginRequest.mk "alice@x.com" "pw1") [] (open_session people))
           alice USER); reflexivity.
Defined.



Lemma register_conflicts_witness :
  register (E := example_externals) 7
           (UserCreate.mk "alice@x.com" "alice2" "pw" USER) (open_session people)
    = (Raise (HTTPException 400 "Email already registered"), open_session people)
  /\ fst (register (E := example_externals) 7
                   (UserCreate.mk "alice2@x.com" "alice" "pw" USER) (open_session people))
     = Raise IntegrityError
  /\ stored (snd (register (E := example_externals) 7
                    (UserCreate.mk "alice2@x.com" "alice" "pw" USER)
                    (open_session people)))
     = people.
Proof.
  split.
  - apply (proj1 (@register_conflicts example_externals 7
                    (UserCreate.mk "alice@x.com" "alice2" "pw" USER) (open_session people))
             alice); [simpl; tauto | reflexivity].
  - apply (proj2 (@register_conflicts example_externals 7
                    (UserCreate.mk "alice2@x.com" "alice" "pw" USER) (open_session people))
             alice); [each_row | simpl; tauto | reflexivity].
Defined.

Lemma role_gates_witness :
  update_user (E := example_externals) 99 (role_only ADMIN) bob (open_session board)
    = (Raise (HTTPException 403 "Superadmin role required"), open_session board)
  /\ create_task 7 fresh_task alice (open_session board)
     = (Raise (HTTPException 403 "Admin role required"), open_session board)
  /\ update_task 99 (new_status DONE) alice (open_session board)
     = (Raise (HTTPException 403 "Admin role required"), open_session board)
  /\ delete_task 99 alice (open_session board)
     = (Raise (HTTPException 403 "Admin role required"), open_session board).
Proof.
  split.
  - apply (proj1 (@role_gates example_externals bob (open_session board))). discriminate.
  - destruct (proj2 (@role_gates example_externals alice (open_session board)))
      as (Hcreate & Hupdate & Hdelete); try discriminate.
    split; [apply Hcreate | split; [apply Hupdate | apply Hdelete]].
Defined.


Lemma create_task_outcomes_witness :
  (create_task 7 fresh_task bob (open_session board)
   = (Return (TaskResponse.mk "fresh" None TODO MEDIUM (Some 50) 7 3 (Some 1)),
      open_session (with_Task_added (created_Task 7 fresh_task bob 1 board) board))
   /\ Task.priority (created_Task 7 fresh_task bob 1 board) = Some HIGH)
  /\ create_task 7 second_early bob (open_session board)
     = (Raise IntegrityError,
        mkSession board (with_Task_added (created_Task 7 second_early bob 1 board) board)).
Proof.
  split.
  - apply (proj1 (@create_task_outcomes 7 fresh_task bob alice 1 board
                    eq_refl (or_introl eq_refl) eq_refl (or_introl eq_refl) eq_refl)).
    each_row.
  - apply (proj2 (@create_task_outcomes 7 second_early bob alice 1 board
                    eq_refl (or_introl eq_refl) eq_refl (or_introl eq_refl) eq_refl)
             early_task); [simpl; tauto | reflexivity].
Defined.


Lemma delete_task_then_missing_witness :
  exists s1,
    delete_task 1 root (open_session board) = (Return "Task is deleted successfully", s1)
    /\ get_task_detail 1 alice s1 = (Raise (HTTPException 404 "Task doesn't exists"), s1)
    /\ (forall up_task,
          update_task 1 up_task root s1 = (Raise (HTTPException 404 "Task not found"), s1))
    /\ delete_task 1 root s1 = (Raise (HTTPException 404 "Task doesn't exists"), s1)
    /\ (forall t, In t (tasks board) -> Task.id t <> 1 -> In t (tasks (stored s1)))
    /\ users (stored s1) = users board
    /\ comments (stored s1) = comments board.
Proof.
  apply (@delete_task_then_missing 1 root alice board early_task
           eq_refl eq_refl (or_introl eq_refl)).
Defined.



Lemma update_user_email_rule_witness :
  update_user (E := example_externals) 1
              (SUPERADMINUserUpdate.mk (Some (Some "bob@x.com")) None None) root
              (open_session people)
    = (Raise (HTTPException 400 "Email already registered"), open_session people)
  /\ update_user (E := example_externals) 1 (email_only "al@x.com") root
                 (open_session people)
     = (Return (set_email (Some "al@x.com") alice),
        open_session (with_User_updated 1 (set_email (Some "al@x.com")) people))
  /\ update_user (E := example_externals) 1 (email_only "alice@x.com") root
                 (open_session people)
     = (Return alice, open_session people).
Proof.
  split; [|split].
  - apply (proj1 (@update_user_email_rule example_externals 1 "bob@x.com" root alice people
                    eq_refl eq_refl eq_refl) bob None None);
      [discriminate | reflexivity | discriminate].
  - apply (proj1 (proj2 (@update_user_email_rule example_externals 1 "al@x.com" root alice
                           people eq_refl eq_refl eq_refl))).
    each_row.
  - apply (proj2 (proj2 (@update_user_email_rule example_externals 1 "alice@x.com" root
                           alice people eq_refl eq_refl eq_refl))).
    reflexivity.
Defined.

Lemma update_current_user_outcomes_witness :
  update_current_user (UserUpdate.mk (Some (Some "bob@x.com")) None) [] alice
                      (open_session people)
    = (Raise (HTTPException 400 "Email already registered"), open_session people)
  /\ update_current_user (username_only "ally") [] alice (open_session people)
     = (Return (set_username (Some "ally") alice, delete_cookie [] "access_token"),
        open_session (with_User_updated 1 (set_username (Some "ally")) people))
  /\ snd (set_username (Some "ally") alice, delete_cookie [] "access_token")
     = delete_cookie [] "access_token".
Proof.
  assert (Hrun : update_current_user (username_only "ally") [] alice (open_session people)
                 = (Return (set_username (Some "ally") alice,
                            delete_cookie [] "access_token"),
                    open_session
                      (with_User_updated 1 (set_username (Some "ally")) people))).
  { apply (proj2 (proj2 (@update_current_user_outcomes (username_only "ally") [] alice
                           people)) "ally" eq_refl eq_refl).
    each_row. }
  split; [|split].
  - apply (proj1 (proj2 (@update_current_user_outcomes
                           (UserUpdate.mk (Some (Some "bob@x.com")) None) [] alice people))
             (Some "bob@x.com") bob eq_refl);
      [discriminate | simpl; tauto | reflexivity].
  - exact Hrun.
  - exact (proj1 (@update_current_user_outcomes (username_only "ally") [] alice people)
             _ _ Hrun).
Defined.

Lemma null_role_breaks_login_witness :
  exists s1,
    update_user (E := example_externals) 1 (role_field_only None) root (open_session people)
      = (Return (set_role None alice), s1)
    /\ login (E := example_externals) (Clock.mk 10 10)
             (LoginRequest.mk "alice@x.com" "pw1") [] s1
       = (Raise AttributeError, s1).
Proof.
  apply (@null_role_breaks_login example_externals 1 root alice people (Clock.mk 10 10)
           (LoginRequest.mk "alice@x.com" "pw1") []);
    try reflexivity.
  discriminate.
Defined.

